(** * The Java test validator and generator of the generate-java-test skill

    A shallow embedding of [skills/generate-java-test/validators.py] and of
    [skills/generate-java-test/mplementation.py].

    Python [str] values are sequences of Unicode code points; they are
    modelled as lists of code points ([N]).  Exceptions are modelled by an
    error monad, the patterns handed to Python's [re] module by a small
    abstract syntax of regular expressions with a backtracking matcher that
    follows [re]'s priorities (leftmost start, alternatives left to right,
    greedy quantifiers longest first, lazy ones shortest first). *)

From Stdlib Require Import NArith Bool Lia.
From stdpp Require Import base option list strings gmap.

Local Open Scope N_scope.

(** ** Text *)

Definition char := N.
Definition text := list char.

Module PyStr.

(** Rocq string literals are UTF-8 byte strings: [py] decodes one into the
    code points of the Python literal with the same spelling. *)
Fixpoint bytes_of (s : string) : list N :=
  match s with
  | EmptyString => []
  | String a r => Ascii.N_of_ascii a :: bytes_of r
  end.

Definition cont (b : N) : N := N.land b 63.

Fixpoint utf8_decode (bs : list N) : text :=
  match bs with
  | [] => []
  | b :: r =>
      if b <? 128 then b :: utf8_decode r
      else if b <? 224 then
        match r with
        | b1 :: r1 => (N.shiftl (N.land b 31) 6 + cont b1) :: utf8_decode r1
        | _ => []
        end
      else if b <? 240 then
        match r with
        | b1 :: b2 :: r2 =>
            (N.shiftl (N.land b 15) 12 + N.shiftl (cont b1) 6 + cont b2)
              :: utf8_decode r2
        | _ => []
        end
      else
        match r with
        | b1 :: b2 :: b3 :: r3 =>
            (N.shiftl (N.land b 7) 18 + N.shiftl (cont b1) 12
             + N.shiftl (cont b2) 6 + cont b3) :: utf8_decode r3
        | _ => []
        end
  end.

Definition py (s : string) : text := utf8_decode (bytes_of s).

(** The newline and the double quote, which a Rocq literal cannot escape. *)
Definition NL : char := 10.
Definition DQ : char := 34.

(** [Py_UNICODE_ISSPACE]: the code points [str.isspace], [str.strip] and
    the class [\s] of a [str] pattern agree on. *)
Definition isspace (c : char) : bool :=
  ((9 <=? c) && (c <=? 13)) || ((28 <=? c) && (c <=? 32))
  || (c =? 133) || (c =? 160) || (c =? 5760)
  || ((8192 <=? c) && (c <=? 8202))
  || (c =? 8232) || (c =? 8233) || (c =? 8239) || (c =? 8287)
  || (c =? 12288).

Definition ascii_alnum (c : char) : bool :=
  ((48 <=? c) && (c <=? 57)) || ((65 <=? c) && (c <=? 90))
  || ((97 <=? c) && (c <=? 122)).

(** Lower-casing of the ASCII letters.  The only pattern of the source
    compiled with [re.IGNORECASE] has the letters j, a and v, and no code
    point outside ASCII lower-cases to one of them. *)
Definition lower (c : char) : char :=
  if (65 <=? c) && (c <=? 90) then c + 32 else c.

(** [s.startswith(p)] *)
Fixpoint startswith (p s : text) : bool :=
  match p, s with
  | [], _ => true
  | a :: p', b :: s' => (a =? b) && startswith p' s'
  | _ :: _, [] => false
  end.

(** [s.endswith(p)] *)
Definition endswith (p s : text) : bool :=
  startswith (rev p) (rev s).

(** [p in s] *)
Fixpoint contains (p s : text) : bool :=
  startswith p s ||
  match s with
  | [] => false
  | _ :: s' => contains p s'
  end.

(** [s.find(p)], with [None] for Python's -1. *)
Fixpoint find (p s : text) : option nat :=
  if startswith p s then Some 0%nat
  else match s with
       | [] => None
       | _ :: s' => S <$> find p s'
       end.

Fixpoint lstrip (s : text) : text :=
  match s with
  | c :: s' => if isspace c then lstrip s' else s
  | [] => []
  end.

Definition rstrip (s : text) : text := rev (lstrip (rev s)).

(** [s.strip()] *)
Definition strip (s : text) : text := rstrip (lstrip s).

(** [s.split(sep)] for a one-character separator: never the empty list. *)
Fixpoint split (sep : char) (s : text) : list text :=
  match s with
  | [] => [[]]
  | c :: s' =>
      if c =? sep then [] :: split sep s'
      else match split sep s' with
           | l :: ls => (c :: l) :: ls
           | [] => [[c]]
           end
  end.

(** [sep.join(parts)] *)
Fixpoint join (sep : text) (parts : list text) : text :=
  match parts with
  | [] => []
  | [p] => p
  | p :: ps => p ++ sep ++ join sep ps
  end.

(** Truthiness of a [str]: the empty string is false. *)
Definition truthy (s : text) : bool :=
  match s with [] => false | _ => true end.

End PyStr.
Import PyStr.

(** ** Exceptions *)

Inductive exn : Type :=
| KeyError (key : text)
| AttributeError (what : text)
| TypeError (what : text)
| ValueError (msg : text)
| ExternalError (what : text).   (* raised by a collaborator *)

Inductive result (A : Type) : Type :=
| Ok (a : A)
| Raise (e : exn).
Arguments Ok {A} a.
Arguments Raise {A} e.

#[export] Instance result_ret : MRet result := fun A a => Ok a.
#[export] Instance result_bind : MBind result := fun A B f r =>
  match r with
  | Ok a => f a
  | Raise e => Raise e
  end.
#[export] Instance result_fmap : FMap result := fun A B f r =>
  match r with
  | Ok a => Ok (f a)
  | Raise e => Raise e
  end.

Definition raises {A} (r : result A) : bool :=
  match r with Ok _ => false | Raise _ => true end.

(** ** Regular expressions

    The constructs the patterns of the source use.  Every quantifier of the
    source ([\s*], [\s+], [\w+], [.*?]) applies to a single-character atom,
    and every pattern has at most one capturing group. *)

Module Re.

Record flags : Type := { IGNORECASE : bool; DOTALL : bool }.
Definition NOFLAGS : flags := {| IGNORECASE := false; DOTALL := false |}.

Inductive cset : Type :=
| CChr (c : char)      (* a literal character *)
| CAny                 (* [.] *)
| CSpace               (* [\s] *)
| CWord.               (* [\w] *)

Inductive regex : Type :=
| Eps
| One (cs : cset)
| Bound                              (* [\b] *)
| Seq (r1 r2 : regex)
| Alt (r1 r2 : regex)                (* [r1|r2] *)
| Opt (r : regex)                    (* [r?], greedy *)
| Rep (greedy : bool) (lo : nat) (cs : cset)   (* [cs{lo,}] or [cs{lo,}?] *)
| Group (r : regex).                 (* the capturing group 1 *)

(** A literal string as a pattern. *)
Fixpoint Str (w : text) : regex :=
  match w with
  | [] => Eps
  | [c] => One (CChr c)
  | c :: w' => Seq (One (CChr c)) (Str w')
  end.

(** The state of a match attempt: the character before the cursor (for
    [\b]), the text from the cursor on, and what group 1 captured. *)
Record mstate : Type :=
  { before : option char; rest : text; group1 : option text }.

Definition advance (c : char) (t : text) (st : mstate) : mstate :=
  {| before := Some c; rest := t; group1 := group1 st |}.

Definition capture (from : mstate) (st : mstate) : mstate :=
  {| before := before st; rest := rest st;
     group1 := Some (take (length (rest from) - length (rest st)) (rest from)) |}.

Section Matcher.

(** [Py_UNICODE_ISALNUM] on the code points above ASCII: a table of the
    Unicode database, which the interpreter supplies. *)
Context (unicode_alnum : char -> bool).
Context (fl : flags).

(** [\w] of a [str] pattern: alphanumeric or the underscore. *)
Definition isword (c : char) : bool :=
  if c <? 128 then ascii_alnum c || (c =? 95) else unicode_alnum c.

Definition cset_match (cs : cset) (c : char) : bool :=
  match cs with
  | CChr a => if IGNORECASE fl then lower a =? lower c else a =? c
  | CAny => DOTALL fl || negb (c =? NL)
  | CSpace => isspace c
  | CWord => isword c
  end.

Definition word_opt (o : option char) : bool :=
  match o with Some c => isword c | None => false end.

(** [\b]: exactly one side of the cursor is a word character. *)
Definition at_boundary (st : mstate) : bool :=
  xorb (word_opt (before st)) (word_opt (head (rest st))).

(** [cs*] (greedy) and [cs*?] (lazy) in front of the continuation [k]. *)
Fixpoint rep_star (greedy : bool) (cs : cset) (s : text) (st : mstate)
    (k : mstate -> option mstate) : option mstate :=
  let here := {| before := before st; rest := s; group1 := group1 st |} in
  match s with
  | [] => k here
  | c :: t =>
      if greedy then
        if cset_match cs c then
          match rep_star greedy cs t (advance c t st) k with
          | Some x => Some x
          | None => k here
          end
        else k here
      else
        match k here with
        | Some x => Some x
        | None =>
            if cset_match cs c then rep_star greedy cs t (advance c t st) k
            else None
        end
  end.

(** [lo] mandatory repetitions, then the star. *)
Fixpoint rep_from (greedy : bool) (lo : nat) (cs : cset) (st : mstate)
    (k : mstate -> option mstate) : option mstate :=
  match lo with
  | O => rep_star greedy cs (rest st) st k
  | S lo' =>
      match rest st with
      | c :: t =>
          if cset_match cs c then rep_from greedy lo' cs (advance c t st) k
          else None
      | [] => None
      end
  end.

(** The backtracking matcher: [m r st k] matches [r] at [st] and hands every
    way of doing so to [k], in [re]'s order of preference, until [k]
    accepts one. *)
Fixpoint m (r : regex) (st : mstate) (k : mstate -> option mstate)
    : option mstate :=
  match r with
  | Eps => k st
  | One cs =>
      match rest st with
      | c :: t => if cset_match cs c then k (advance c t st) else None
      | [] => None
      end
  | Bound => if at_boundary st then k st else None
  | Seq r1 r2 => m r1 st (fun st1 => m r2 st1 k)
  | Alt r1 r2 =>
      match m r1 st k with
      | Some x => Some x
      | None => m r2 st k
      end
  | Opt r1 =>
      match m r1 st k with
      | Some x => Some x
      | None => k st
      end
  | Rep greedy lo cs => rep_from greedy lo cs st k
  | Group r1 => m r1 st (fun st1 => k (capture st st1))
  end.

(** A match object: [start()], [end()], [group(0)] and [group(1)]; the
    last is [None] when the group took no part in the match. *)
Record Match : Type :=
  { m_start : nat; m_end : nat; group0 : text; m_group1 : option text }.

Fixpoint search_from (r : regex) (pos : nat) (b : option char) (s : text)
    : option Match :=
  match m r {| before := b; rest := s; group1 := None |} Some with
  | Some st =>
      let n := (length s - length (rest st))%nat in
      Some {| m_start := pos; m_end := (pos + n)%nat; group0 := take n s;
              m_group1 := group1 st |}
  | None =>
      match s with
      | [] => None
      | c :: t => search_from r (S pos) (Some c) t
      end
  end.

(** [re.search(pattern, s, flags)] *)
Definition search (r : regex) (s : text) : option Match :=
  search_from r 0 None s.

(** [re.findall(pattern, s)] for a pattern without groups: the texts of the
    successive non-overlapping matches, left to right.  After an empty
    match the scan resumes one character further. *)
Fixpoint findall_from (fuel : nat) (r : regex) (b : option char) (s : text)
    : list text :=
  match fuel with
  | O => []
  | S fuel' =>
      match search_from r 0 b s with
      | None => []
      | Some mt =>
          let after := drop (m_end mt) s in
          let b' := match last (take (m_end mt) s) with
                    | Some c => Some c
                    | None => b
                    end in
          group0 mt ::
          (if (m_end mt =? m_start mt)%nat then
             match after with
             | [] => []
             | c :: t => findall_from fuel' r (Some c) t
             end
           else findall_from fuel' r b' after)
      end
  end.

Definition findall (r : regex) (s : text) : list text :=
  findall_from (S (length s)) r None s.

End Matcher.

(** [match.group(1)]: the captured text, or Python's [None]. *)
Definition group_1 (mt : Match) : option text := m_group1 mt.

End Re.
Import Re.

(** The concatenation of the parts of a pattern, left to right. *)
Definition Cat (parts : list regex) : regex := foldr Seq Eps parts.

Arguments py : simpl never.

(** ** validators.py *)

(** The report [validate] builds: the dict with the keys [valid],
    [clean_code], [errors], [warnings] and [suggestions]. *)
Record ValidationReport : Type :=
  { valid : bool;
    clean_code : text;
    errors : list text;
    warnings : list text;
    suggestions : list text }.

(** The dict [_check_structure] returns. *)
Record Issues : Type :=
  { i_errors : list text; i_warnings : list text; i_suggestions : list text }.

(** An instance of the class: the two attributes [__init__] sets. *)
Record JavaTestValidator : Type :=
  { dangerous_patterns : list (regex * text);
    junit5_required_imports : list text }.

(** [r'\b(Runtime|ProcessBuilder)\.getRuntime\(\)'] *)
Definition pat_runtime : regex :=
  Cat [ Bound; Group (Alt (Str (py "Runtime")) (Str (py "ProcessBuilder")));
        Str (py ".getRuntime()") ].

(** [r'\bexec\('] *)
Definition pat_exec : regex := Cat [ Bound; Str (py "exec(") ].

(** ['new ProcessBuilder'] *)
Definition pat_process : regex := Str (py "new ProcessBuilder").

(** [r'System\.exit'] *)
Definition pat_exit : regex := Str (py "System.exit").

(** [__init__] *)
Definition JavaTestValidator_init : JavaTestValidator :=
  {| dangerous_patterns :=
       [ (pat_runtime, py "禁止使用 Runtime 执行系统命令");
         (pat_exec, py "禁止调用 exec()");
         (pat_process, py "禁止创建进程");
         (pat_exit, py "禁止调用 System.exit()") ];
     junit5_required_imports :=
       [ py "org.junit.jupiter.api.Test";
         py "org.junit.jupiter.api.BeforeEach";
         py "org.junit.jupiter.api.AfterEach" ] |}.

(** The pattern of [_extract_java_code], compiled with
    [re.DOTALL | re.IGNORECASE]: three backticks, [(?:java)?], [\s*], [\n?],
    the group [(.*?)], [\n?], three backticks. *)
Definition FENCE : text := py "```".

Definition pat_code_block : regex :=
  Cat [ Str FENCE; Opt (Str (py "java")); Rep true 0 CSpace; Opt (One (CChr NL));
        Group (Rep false 0 CAny); Opt (One (CChr NL)); Str FENCE ].

Definition code_block_flags : flags := {| IGNORECASE := true; DOTALL := true |}.

(** [r"public\s+class\s+(\w+)"] *)
Definition pat_public_class : regex :=
  Cat [ Str (py "public"); Rep true 1 CSpace; Str (py "class"); Rep true 1 CSpace;
        Group (Rep true 1 CWord) ].

(** [r"@Test\b"] *)
Definition pat_test_marker : regex := Cat [ Str (py "@Test"); Bound ].

(** [mt.group(1).strip()] and the like: a method call on what [group(1)]
    returned, which is [None] for a group that took no part. *)
Definition group_1_str (mt : Match) : result text :=
  match group_1 mt with
  | Some s => Ok s
  | None => Raise (AttributeError (py "'NoneType' object has no attribute"))
  end.

Section Validator.

Context (unicode_alnum : char -> bool).

Abbreviation re_search := (search unicode_alnum).
Abbreviation re_findall := (findall unicode_alnum).

(** [_extract_java_code] *)
Definition _extract_java_code (self : JavaTestValidator) (text_ : text)
    : result text :=
  match re_search code_block_flags pat_code_block text_ with
  | Some code_block_match => strip <$> group_1_str code_block_match
  | None =>
      let lines := split NL (strip text_) in
      match lines with
      | line0 :: _ =>
          if startswith (py "public class") line0
             || startswith (py "import") line0
          then Ok (strip text_)
          else Ok []
      | [] => Ok []
      end
  end.

(** [_check_safety]: the loop over [self.dangerous_patterns], appending the
    message of every pattern found. *)
Definition _check_safety (self : JavaTestValidator) (code : text)
    : bool * list text :=
  let issues :=
    foldl (fun issues '(pattern, msg) =>
             match re_search NOFLAGS pattern code with
             | Some _ => issues ++ [msg]
             | None => issues
             end) [] (dangerous_patterns self) in
  ((length issues =? 0)%nat, issues).

(** [_check_structure] *)
Definition _check_structure (self : JavaTestValidator) (code : text)
    (target_class_name : option text) : result Issues :=
  let issues := {| i_errors := []; i_warnings := []; i_suggestions := [] |} in
  let has_junit_import :=
    existsb (fun imp => contains imp code)
      [ py "import org.junit.jupiter.api.Test;";
        py "import static org.junit.jupiter.api.Assertions.*;" ] in
  let issues :=
    if negb has_junit_import then
      {| i_errors := i_errors issues ++ [py "缺少 JUnit 5 相关导入（应包含 @Test）"];
         i_warnings := i_warnings issues;
         i_suggestions := i_suggestions issues |}
    else issues in
  issues ←
    match re_search NOFLAGS pat_public_class code with
    | None =>
        Ok {| i_errors := i_errors issues ++ [py "未找到 public class 定义"];
              i_warnings := i_warnings issues;
              i_suggestions := i_suggestions issues |}
    | Some test_class_match =>
        test_class_name ← group_1_str test_class_match;
        let issues :=
          if negb (endswith (py "Test") test_class_name) then
            {| i_errors := i_errors issues;
               i_warnings := i_warnings issues
                 ++ [py "测试类名 '" ++ test_class_name ++ py "' 应以 'Test' 结尾"];
               i_suggestions := i_suggestions issues |}
          else issues in
        Ok (match target_class_name with
            | Some target =>
                if truthy target && negb (startswith target test_class_name) then
                  {| i_errors := i_errors issues;
                     i_warnings := i_warnings issues;
                     i_suggestions := i_suggestions issues
                       ++ [py "建议测试类命名为 '" ++ target ++ py "Test' 以匹配被测类"] |}
                else issues
            | None => issues
            end)
    end;
  let test_methods := re_findall NOFLAGS pat_test_marker code in
  let issues :=
    if (length test_methods =? 0)%nat then
      {| i_errors := i_errors issues ++ [py "未找到任何 @Test 注解的方法"];
         i_warnings := i_warnings issues;
         i_suggestions := i_suggestions issues |}
    else issues in
  let issues :=
    if contains (py "public static void main") code then
      {| i_errors := i_errors issues;
         i_warnings := i_warnings issues ++ [py "测试类中不应包含 main 方法"];
         i_suggestions := i_suggestions issues |}
    else issues in
  let issues :=
    if contains (py "mock(") code || contains (py "when(") code
       || contains (py "verify(") code then
      if negb (contains (py "import org.mockito") code) then
        {| i_errors := i_errors issues;
           i_warnings := i_warnings issues ++ [py "检测到 Mockito 用法但缺少相关导入"];
           i_suggestions := i_suggestions issues |}
      else issues
    else issues in
  Ok issues.

(** [validate] *)
Definition validate (self : JavaTestValidator) (raw_output : text)
    (target_class_name : option text) : result ValidationReport :=
  let result_ := {| valid := false; clean_code := []; errors := [];
                    warnings := []; suggestions := [] |} in
  code ← _extract_java_code self raw_output;
  if negb (truthy code) then
    Ok {| valid := valid result_; clean_code := clean_code result_;
          errors := errors result_ ++ [py "未找到有效的 ```java 代码块"];
          warnings := warnings result_; suggestions := suggestions result_ |}
  else
    let result_ := {| valid := valid result_; clean_code := code;
                      errors := errors result_; warnings := warnings result_;
                      suggestions := suggestions result_ |} in
    let '(safe, safety_issues) := _check_safety self code in
    if negb safe then
      Ok {| valid := valid result_; clean_code := clean_code result_;
            errors := errors result_ ++ safety_issues;
            warnings := warnings result_; suggestions := suggestions result_ |}
    else
      struct_issues ← _check_structure self code target_class_name;
      let result_ :=
        {| valid := valid result_; clean_code := clean_code result_;
           errors := errors result_ ++ i_errors struct_issues;
           warnings := warnings result_ ++ i_warnings struct_issues;
           suggestions := suggestions result_ ++ i_suggestions struct_issues |} in
      Ok {| valid := (length (errors result_) =? 0)%nat;
            clean_code := clean_code result_;
            errors := errors result_; warnings := warnings result_;
            suggestions := suggestions result_ |}.

End Validator.

(** The module-level [logger]: [logger.debug] keeps a record when the
    DEBUG level is enabled, and does nothing otherwise. *)
Record Logger : Type :=
  { debug_enabled : bool; debug_records : list ValidationReport }.

Definition logger_debug (r : ValidationReport) (lg : Logger) : Logger :=
  if debug_enabled lg then
    {| debug_enabled := true; debug_records := debug_records lg ++ [r] |}
  else lg.

Section ValidateJavaTest.

Context (unicode_alnum : char -> bool).

(** [validate_java_test]: a fresh validator, [validate], the strict-mode
    escalation and the debug record.  An exception of [validate] leaves
    the logger as it was. *)
Definition validate_java_test (raw_output : text)
    (target_class_name : option text) (strict : bool) (lg : Logger)
    : result ValidationReport * Logger :=
  let validator := JavaTestValidator_init in
  match validate unicode_alnum validator raw_output target_class_name with
  | Raise e => (Raise e, lg)
  | Ok result_ =>
      let result_ :=
        if strict && negb (length (warnings result_) =? 0)%nat then
          {| valid := false; clean_code := clean_code result_;
             errors := errors result_ ++ warnings result_;
             warnings := warnings result_;
             suggestions := suggestions result_ |}
        else result_ in
      (Ok result_, logger_debug result_ lg)
  end.

End ValidateJavaTest.

(** ** mplementation.py *)

(** The Python values the generator handles. *)
#[warnings="-register-all"]
Inductive pyval : Type :=
| VNone
| VBool (b : bool)
| VStr (s : text)
| VList (l : list pyval)
| VDict (d : list (text * pyval)).

(** Truthiness, as [not v] uses it. *)
Definition val_truthy (v : pyval) : bool :=
  match v with
  | VNone => false
  | VBool b => b
  | VStr s => truthy s
  | VList l => negb (length l =? 0)%nat
  | VDict d => negb (length d =? 0)%nat
  end.

(** The report as the dict the generator subscripts. *)
Definition report_dict (r : ValidationReport) : gmap text pyval :=
  list_to_map
    [ (py "valid", VBool (valid r));
      (py "clean_code", VStr (clean_code r));
      (py "errors", VList (VStr <$> errors r));
      (py "warnings", VList (VStr <$> warnings r));
      (py "suggestions", VList (VStr <$> suggestions r)) ].

(** [d[key]] *)
Definition getitem (d : gmap text pyval) (key : text) : result pyval :=
  match d !! key with
  | Some v => Ok v
  | None => Raise (KeyError key)
  end.

(** [sep.join(v)]: [v] has to be a list of strings. *)
Fixpoint strs_of (l : list pyval) : option (list text) :=
  match l with
  | [] => Some []
  | VStr s :: l' => (s ::.) <$> strs_of l'
  | _ :: _ => None
  end.

Definition val_join (sep : text) (v : pyval) : result text :=
  match v with
  | VList l =>
      match strs_of l with
      | Some parts => Ok (join sep parts)
      | None => Raise (TypeError (py "sequence item: expected str instance"))
      end
  | _ => Raise (TypeError (py "can only join an iterable"))
  end.

(** [agent.state.AgentState], as far as the generator uses it. *)
Record AgentState : Type := { scratchpad : gmap text pyval }.

(** What [generate_java_test] returns. *)
Record GenerationResult : Type :=
  { test_class : pyval; file_path : text; dependencies : list text }.

(** [os.path.join] of a directory and a relative name. *)
Definition os_path_join (dir name : text) : text :=
  if negb (truthy dir) || endswith (py "/") dir then dir ++ name
  else dir ++ py "/" ++ name.

Section Generator.

Context (unicode_alnum : char -> bool).

(** The collaborators outside this repository: the directory of the
    module, reading a file, jinja2's [Template(...).render(...)] and
    [agent.llm.call_llm].  Each may raise. *)
Context (module_dir : text).
Context (open_read : text -> result text).
Context (template_render : text -> list (text * pyval) -> result text).
Context (call_llm : text -> text -> result text).

Definition opt_val (o : option text) : pyval :=
  match o with Some s => VStr s | None => VNone end.

(** Steps 1 to 3 of [generate_java_test]: the project dependencies of the
    scratchpad, the rendered prompt, the reply of the model. *)
Definition llm_reply (state : AgentState) (class_name source_code : text)
    (method_signature : option text) (framework : text) : result text :=
  let project_deps :=
    default (VList []) (scratchpad state !! py "project_dependencies") in
  src ← open_read (os_path_join module_dir (py "prompt_template.j2"));
  prompt ← template_render src
    [ (py "class_name", VStr class_name);
      (py "method_signature", opt_val method_signature);
      (py "source_code", VStr source_code);
      (py "project_deps", project_deps);
      (py "framework", VStr framework) ];
  call_llm prompt (py "claude-3-5-sonnet").

(** Step 4: the check of the report, which raises or yields the clean
    code. *)
Definition checked_code (validation : gmap text pyval) : result pyval :=
  is_valid ← getitem validation (py "valid");
  if negb (val_truthy is_valid) then
    issues ← getitem validation (py "issues");
    joined ← val_join (py ", ") issues;
    Raise (ValueError (py "测试生成失败: " ++ joined))
  else getitem validation (py "clean_code").

(** [generate_java_test].  The scratchpad is written in the last step
    only, so an exception leaves the agent state as it was; the logger is
    the one [validate_java_test] left. *)
Definition generate_java_test (state : AgentState) (class_name source_code : text)
    (method_signature : option text) (framework : text) (lg : Logger)
    : result GenerationResult * AgentState * Logger :=
  match llm_reply state class_name source_code method_signature framework with
  | Raise e => (Raise e, state, lg)
  | Ok raw_output =>
      match validate_java_test unicode_alnum raw_output None true lg with
      | (Raise e, lg') => (Raise e, state, lg')
      | (Ok report, lg') =>
          match checked_code (report_dict report) with
          | Raise e => (Raise e, state, lg')
          | Ok clean_code_ =>
              let test_file_path :=
                py "src/test/java/" ++ class_name ++ py "Test.java" in
              let state' :=
                {| scratchpad :=
                     <[ py "last_generated_test" :=
                          VDict [ (py "class_name", VStr class_name);
                                  (py "test_code", clean_code_);
                                  (py "file_path", VStr test_file_path) ] ]>
                       (scratchpad state) |} in
              (Ok {| test_class := clean_code_;
                     file_path := test_file_path;
                     dependencies :=
                       [ py "org.mockito:mockito-core";
                         py "org.junit.jupiter:junit-jupiter" ] |},
               state', lg')
          end
      end
  end.

End Generator.

(** * The vocabulary of the properties *)

Module SpecWords.

(** The first line of a text: what precedes its first newline. *)
Fixpoint first_line (s : text) : text :=
  match s with
  | [] => []
  | c :: s' => if c =? NL then [] else c :: first_line s'
  end.

(** The words of the specification.  A fenced block is opened by the first
    triple backtick of the text and closed by the next one; it is tagged
    when the letters j, a, v, a (in either case) follow the opening fence. *)
Definition tagged_java (tag : text) : Prop := lower <$> tag = py "java".

Definition untagged (tag body : text) : Prop :=
  tag = [] /\ lower <$> take 4 body <> py "java".

Definition no_fenced_block (s : text) : Prop :=
  forall a b c, s <> a ++ FENCE ++ b ++ FENCE ++ c.

Definition begins_like_code (s : text) : bool :=
  startswith (py "public class") (first_line s)
  || startswith (py "import") (first_line s).

(** The reasons of the danger patterns found in [code], in the order of
    the pattern list. *)
Definition triggered (T : char -> bool) (self : JavaTestValidator)
    (code : text) : list text :=
  (filter (fun p => is_Some (search T NOFLAGS p.1 code)) (dangerous_patterns self)).*2.

(** The three exits of [validate], with the code extracted and the report
    returned: no code, unsafe code, checked code. *)
Inductive validate_exit (T : char -> bool) (self : JavaTestValidator)
    (target : option text) : text -> ValidationReport -> Prop :=
| exit_no_code :
    validate_exit T self target []
      {| valid := false; clean_code := [];
         errors := [py "未找到有效的 ```java 代码块"];
         warnings := []; suggestions := [] |}
| exit_unsafe code :
    code <> [] -> triggered T self code <> [] ->
    validate_exit T self target code
      {| valid := false; clean_code := code;
         errors := triggered T self code;
         warnings := []; suggestions := [] |}
| exit_checked code issues :
    code <> [] -> triggered T self code = [] ->
    _check_structure T self code target = Ok issues ->
    validate_exit T self target code
      {| valid := (length (i_errors issues) =? 0)%nat; clean_code := code;
         errors := i_errors issues; warnings := i_warnings issues;
         suggestions := i_suggestions issues |}.

(** What [validate_java_test] makes of the report of [validate]. *)
Definition escalate (strict : bool) (r : ValidationReport) : ValidationReport :=
  if strict && negb (length (warnings r) =? 0)%nat then
    {| valid := false; clean_code := clean_code r;
       errors := errors r ++ warnings r; warnings := warnings r;
       suggestions := suggestions r |}
  else r.

(** A table with no alphanumeric code point above ASCII.  On ASCII texts
    the table is never consulted, so it serves to run the validator on
    them. *)
Definition ascii_only : char -> bool := fun _ => false.

(** The checks of [_check_structure], one by one. *)
Definition has_junit_import (code : text) : bool :=
  existsb (fun imp => contains imp code)
    [ py "import org.junit.jupiter.api.Test;";
      py "import static org.junit.jupiter.api.Assertions.*;" ].

(** The name the class-name pattern captures, if the pattern is found. *)
Definition class_name (T : char -> bool) (code : text) : option text :=
  mt ← search T NOFLAGS pat_public_class code; group_1 mt.

Definition has_test_marker (T : char -> bool) (code : text) : bool :=
  negb (length (findall T NOFLAGS pat_test_marker code) =? 0)%nat.

Definition has_main (code : text) : bool :=
  contains (py "public static void main") code.

Definition mock_without_import (code : text) : bool :=
  (contains (py "mock(") code || contains (py "when(") code
   || contains (py "verify(") code)
  && negb (contains (py "import org.mockito") code).

Definition structure_errors (T : char -> bool) (code : text) : list text :=
  (if has_junit_import code then []
   else [py "缺少 JUnit 5 相关导入（应包含 @Test）"])
  ++ (match class_name T code with
      | Some _ => []
      | None => [py "未找到 public class 定义"]
      end)
  ++ (if has_test_marker T code then []
      else [py "未找到任何 @Test 注解的方法"]).

Definition structure_warnings (T : char -> bool) (code : text) : list text :=
  (match class_name T code with
   | Some name =>
       if endswith (py "Test") name then []
       else [py "测试类名 '" ++ name ++ py "' 应以 'Test' 结尾"]
   | None => []
   end)
  ++ (if has_main code then [py "测试类中不应包含 main 方法"] else [])
  ++ (if mock_without_import code then [py "检测到 Mockito 用法但缺少相关导入"]
      else []).

Definition structure_suggestions (T : char -> bool) (code : text)
    (target : option text) : list text :=
  match class_name T code, target with
  | Some name, Some t =>
      if truthy t && negb (startswith t name) then
        [py "建议测试类命名为 '" ++ t ++ py "Test' 以匹配被测类"]
      else []
  | _, _ => []
  end.

(** The report [validate] returns for the code it extracted. *)
Definition report_for (T : char -> bool) (self : JavaTestValidator)
    (code : text) (target : option text) : ValidationReport :=
  match code with
  | [] =>
      {| valid := false; clean_code := [];
         errors := [py "未找到有效的 ```java 代码块"];
         warnings := []; suggestions := [] |}
  | _ :: _ =>
      match triggered T self code with
      | [] =>
          {| valid := (length (structure_errors T code) =? 0)%nat;
             clean_code := code;
             errors := structure_errors T code;
             warnings := structure_warnings T code;
             suggestions := structure_suggestions T code target |}
      | reasons =>
          {| valid := false; clean_code := code; errors := reasons;
             warnings := []; suggestions := [] |}
      end
  end.

End SpecWords.
Import SpecWords.

(** ** Sample inputs *)

(** Scenario 1 of the specification. *)
Definition scenario1 : text :=
  py "Here is the test:
```java
public class FooTest {
  @Test
  void t() {}
}
```".

Definition scenario1_code : text :=
  py "public class FooTest {
  @Test
  void t() {}
}".

(** [Runtime.getRuntime().exec("rm -rf /")] *)
Definition rm_rf_call : text :=
  py "Runtime.getRuntime().exec(" ++ [DQ] ++ py "rm -rf /" ++ [DQ] ++ py ")".

(** Scenario 2 of the specification: the call in a fenced block. *)
Definition scenario2 : text :=
  py "```java
" ++ rm_rf_call ++ py ";
```".

(** A block tagged with another language in front of a Java block. *)
Definition two_blocks : text :=
  py "```python
x
```
```java
y
```".

(** A reply without any code. *)
Definition refusal : text := py "Sorry, I cannot help with that".

(** A test class that passes every check, and a reply that carries it. *)
Definition passing_code : text :=
  py "import org.junit.jupiter.api.Test;
public class FooTest {
  @Test
  void t() {}
}".

Definition passing_reply : text :=
  py "```java
" ++ passing_code ++ py "
```".

(** * The vocabulary of the proofs: runs of the matcher *)

Module Runs.

(** The state after [n] more characters. *)
Fixpoint skip (n : nat) (st : mstate) : mstate :=
  match n with
  | O => st
  | S n' =>
      match rest st with
      | c :: t => skip n' (advance c t st)
      | [] => st
      end
  end.

(** The character before the cursor once [u] has been read. *)
Definition after (b : option char) (u : text) : option char :=
  match last u with Some c => Some c | None => b end.

(** [w] matches at the head of [s], literal by literal, under the flags. *)
Fixpoint lit_prefix (fl : flags) (w s : text) : bool :=
  match w, s with
  | [], _ => true
  | a :: w', c :: s' =>
      (if IGNORECASE fl then lower a =? lower c else a =? c) && lit_prefix fl w' s'
  | _ :: _, [] => false
  end.

(** A character without an upper or lower case: [re.IGNORECASE] compares
    it as it is. *)
Definition caseless (a : char) : bool :=
  (a <? 65) || ((90 <? a) && (a <? 97)) || (122 <? a).

(** No state whose text is a suffix of [w] is accepted by [k]. *)
Definition fails_below (w : text) (k : mstate -> option mstate) : Prop :=
  forall st, rest st `suffix_of` w -> k st = None.

(** The pattern has a capturing group. *)
Fixpoint has_group (r : regex) : bool :=
  match r with
  | Seq r1 r2 | Alt r1 r2 => has_group r1 || has_group r2
  | Opt r1 => has_group r1
  | Group _ => true
  | _ => false
  end.

(** What follows the optional tag in the pattern of the extractor. *)
Definition pat_block_tail : regex :=
  Cat [ Rep true 0 CSpace; Opt (One (CChr NL)); Group (Rep false 0 CAny);
        Opt (One (CChr NL)); Str FENCE ].

Definition pat_block_close : regex := Cat [ Opt (One (CChr NL)); Str FENCE ].

End Runs.
Import Runs.

(** * Facts about the matcher *)

Module ReFacts.

Section Generic.

Context (T : char -> bool) (fl : flags).



(** A star hands [k] only states further down the text, and so does the
    whole matcher. *)
Lemma rep_star_none greedy cs s st k :
  fails_below s k -> rep_star T fl greedy cs s st k = None.
Proof.
  revert st; induction s as [|c t IH]; intros st Hk; simpl.
  - apply Hk; simpl. done.
  - assert (Hhere : k {| before := before st; rest := c :: t;
                         group1 := group1 st |} = None)
      by (apply Hk; simpl; done).
    assert (Hrec : rep_star T fl greedy cs t (advance c t st) k = None).
    { apply IH. intros st' Hs. apply Hk. by apply suffix_cons_r. }
    rewrite Hhere, Hrec. by destruct greedy, (cset_match T fl cs c).
Qed.

Lemma rep_from_none greedy lo cs st k :
  fails_below (rest st) k -> rep_from T fl greedy lo cs st k = None.
Proof.
  revert st; induction lo as [|lo IH]; intros st Hk; simpl.
  - by apply rep_star_none.
  - destruct (rest st) as [|c t] eqn:E; [done|].
    destruct (cset_match T fl cs c); [|done].
    apply IH; simpl. intros st' Hs. apply Hk. by apply suffix_cons_r.
Qed.

Lemma m_none r st k :
  fails_below (rest st) k -> m T fl r st k = None.
Proof.
  revert st k; induction r as [|cs| |r1 IH1 r2 IH2|r1 IH1 r2 IH2|r1 IH1
                                |greedy lo cs|r1 IH1]; intros st k Hk; simpl.
  - by apply Hk.
  - destruct (rest st) as [|c t] eqn:E; [done|].
    destruct (cset_match T fl cs c); [|done].
    apply Hk; simpl. by apply suffix_cons_r.
  - destruct (at_boundary T st); [|done]. by apply Hk.
  - apply IH1. intros st1 Hs. apply IH2. intros st2 Hs2.
    apply Hk. by etrans.
  - rewrite IH1, IH2; done.
  - rewrite IH1; [|done]. by apply Hk.
  - by apply rep_from_none.
  - apply IH1. intros st1 Hs. by apply Hk.
Qed.


Lemma fails_below_Seq r1 r2 w k :
  fails_below w (fun st => m T fl r2 st k) ->
  fails_below w (fun st => m T fl (Seq r1 r2) st k).
Proof.
  intros Hk st Hs. simpl. apply m_none. intros st' Hs'. apply Hk. by etrans.
Qed.

(** Whatever the matcher returns, the continuation returned it, at a state
    that kept the capture of a pattern without a group. *)
Lemma rep_star_some greedy cs s st k x :
  rep_star T fl greedy cs s st k = Some x ->
  exists st', k st' = Some x /\ group1 st' = group1 st.
Proof.
  revert st; induction s as [|c t IH]; intros st; simpl.
  - intros H. eexists; split; [exact H|done].
  - set (here := {| before := before st; rest := c :: t; group1 := group1 st |}).
    destruct greedy.
    + destruct (cset_match T fl cs c).
      * destruct (rep_star T fl true cs t (advance c t st) k) as [y|] eqn:E.
        -- intros [= ->]. destruct (IH _ E) as (st' & H1 & H2). eauto.
        -- intros H. exists here; eauto.
      * intros H. exists here; eauto.
    + destruct (k here) as [y|] eqn:E.
      * intros [= ->]. exists here; eauto.
      * destruct (cset_match T fl cs c); [|done].
        intros H. destruct (IH _ H) as (st' & H1 & H2). eauto.
Qed.

Lemma rep_from_some greedy lo cs st k x :
  rep_from T fl greedy lo cs st k = Some x ->
  exists st', k st' = Some x /\ group1 st' = group1 st.
Proof.
  revert st; induction lo as [|lo IH]; intros st; simpl.
  - apply rep_star_some.
  - destruct (rest st) as [|c t]; [done|].
    destruct (cset_match T fl cs c); [|done].
    intros H. destruct (IH _ H) as (st' & H1 & H2). eauto.
Qed.

Lemma m_some r st k x :
  m T fl r st k = Some x ->
  exists st', k st' = Some x /\ (has_group r = false -> group1 st' = group1 st).
Proof.
  revert st k; induction r as [|cs| |r1 IH1 r2 IH2|r1 IH1 r2 IH2|r1 IH1
                                |greedy lo cs|r1 IH1]; intros st k; simpl.
  - eauto.
  - destruct (rest st) as [|c t]; [done|].
    destruct (cset_match T fl cs c); [|done]. eauto.
  - destruct (at_boundary T st); [|done]. eauto.
  - intros H. destruct (IH1 _ _ H) as (st1 & H1 & G1).
    destruct (IH2 _ _ H1) as (st2 & H2 & G2).
    exists st2; split; [done|]. intros [? ?]%orb_false_elim.
    rewrite G2, G1; done.
  - destruct (m T fl r1 st k) as [y|] eqn:E.
    + intros [= ->]. destruct (IH1 _ _ E) as (st1 & H1 & G1).
      exists st1; split; [done|]. intros [? ?]%orb_false_elim. auto.
    + intros H. destruct (IH2 _ _ H) as (st2 & H2 & G2).
      exists st2; split; [done|]. intros [? ?]%orb_false_elim. auto.
  - destruct (m T fl r1 st k) as [y|] eqn:E.
    + intros [= ->]. destruct (IH1 _ _ E) as (st1 & H1 & G1). eauto.
    + eauto.
  - intros H. destruct (rep_from_some _ _ _ _ _ _ H) as (st' & H1 & H2). eauto.
  - intros H. destruct (IH1 _ _ H) as (st1 & H1 & _).
    exists (capture st st1). split; [done|]. done.
Qed.

End Generic.

End ReFacts.

(** * Facts about the string operations *)

Module PyStrFacts.

Lemma lower_eqb_caseless a c :
  caseless a = true -> (lower a =? lower c) = (a =? c).
Proof.
  unfold caseless, lower. intros H.
  destruct (N.leb_spec 65 a), (N.leb_spec a 90), (N.leb_spec 65 c),
    (N.leb_spec c 90), (N.ltb_spec a 65), (N.ltb_spec 90 a),
    (N.ltb_spec a 97), (N.ltb_spec 122 a); simpl in *; try discriminate;
    try lia; destruct (N.eqb_spec a c), (N.eqb_spec a (c + 32)); lia.
Qed.

Lemma startswith_app p s : startswith p (p ++ s) = true.
Proof. induction p as [|a p IH]; simpl; [done|]. by rewrite N.eqb_refl. Qed.

Lemma startswith_true p s : startswith p s = true -> s = p ++ drop (length p) s.
Proof.
  revert s; induction p as [|a p IH]; intros [|c s]; simpl; try done.
  intros [->%N.eqb_eq H]%andb_true_iff. f_equal. by apply IH.
Qed.

Lemma startswith_app_long w a b :
  (length w <= length a)%nat -> startswith w (a ++ b) = startswith w a.
Proof.
  revert a; induction w as [|x w IH]; intros [|c a]; simpl; try done; [lia|].
  intros H. rewrite IH; [done|lia].
Qed.

Lemma find_cons_S p c s n :
  find p (c :: s) = Some (S n) -> startswith p (c :: s) = false /\ find p s = Some n.
Proof.
  cbn [find]. destruct (startswith p (c :: s)); [done|].
  destruct (find p s) as [k|]; simpl; [|done]. by intros [= ->].
Qed.

(** Before the position [find] returns, the pattern starts nowhere. *)
Lemma find_first_split p a s :
  find p (a ++ s) = Some (length a) ->
  forall a1 a2, a = a1 ++ a2 -> a2 <> [] -> startswith p (a2 ++ s) = false.
Proof.
  intros H a1; revert a H; induction a1 as [|c a1 IH]; intros a H a2 -> Hne.
  - destruct a2 as [|c a2]; [done|]. simpl in H. by apply find_cons_S in H as [? _].
  - simpl in H. apply find_cons_S in H as [_ H]. by eapply IH.
Qed.


Lemma lstrip_app_stop a c b :
  isspace c = false -> lstrip (a ++ c :: b) = lstrip a ++ c :: b.
Proof.
  intros Hc; induction a as [|x a IH]; simpl.
  - by rewrite Hc.
  - by destruct (isspace x).
Qed.

Lemma lstrip_head c t s : lstrip s = c :: t -> isspace c = false.
Proof.
  induction s as [|x s IH]; simpl; [done|].
  destruct (isspace x) eqn:E; [done|]. by intros [= <- _].
Qed.

Lemma lstrip_idemp s : lstrip (lstrip s) = lstrip s.
Proof.
  induction s as [|x s IH]; simpl; [done|].
  destruct (isspace x) eqn:E; [done|]. simpl. by rewrite E.
Qed.

Lemma strip_lstrip s : strip (lstrip s) = strip s.
Proof. unfold strip. by rewrite lstrip_idemp. Qed.

Lemma lstrip_snoc_space s c :
  isspace c = true ->
  lstrip (s ++ [c]) = match lstrip s with [] => [] | _ => lstrip s ++ [c] end.
Proof.
  intros Hc; induction s as [|x s IH]; simpl.
  - by rewrite Hc.
  - by destruct (isspace x) eqn:E.
Qed.

Lemma rstrip_snoc_space s c : isspace c = true -> rstrip (s ++ [c]) = rstrip s.
Proof. intros Hc. unfold rstrip. rewrite rev_app_distr. simpl. by rewrite Hc. Qed.

(** A trailing whitespace character is stripped. *)
Lemma strip_snoc_space s c : isspace c = true -> strip (s ++ [c]) = strip s.
Proof.
  intros Hc. unfold strip. rewrite lstrip_snoc_space by done.
  destruct (lstrip s) as [|x l] eqn:E; [done|]. by rewrite rstrip_snoc_space.
Qed.

(** [lines[0]] of [s.split('\n')] is the first line of [s]. *)
Lemma split_first_line s : exists ls, split NL s = first_line s :: ls.
Proof.
  induction s as [|c s [ls IH]]; simpl; [by eexists|].
  destruct (c =? NL); [by eexists|]. rewrite IH. by eexists.
Qed.


End PyStrFacts.

(** * How the matcher runs on literals, stars and scans *)

Module ReEval.
Import ReFacts PyStrFacts.

Section Eval.

Context (T : char -> bool) (fl : flags).

Lemma after_cons b c u : after b (c :: u) = after (Some c) u.
Proof. unfold after. rewrite last_cons. by destruct (last u). Qed.

Lemma skip_eq w t st :
  rest st = w ++ t ->
  skip (length w) st
  = {| before := after (before st) w; rest := t; group1 := group1 st |}.
Proof.
  revert st; induction w as [|c w IH]; intros st H.
  - destruct st; simpl in *. by subst.
  - simpl. rewrite H. cbn [app]. rewrite after_cons. by rewrite IH.
Qed.

Lemma m_Seq r1 r2 st k :
  m T fl (Seq r1 r2) st k = m T fl r1 st (fun st1 => m T fl r2 st1 k).
Proof. done. Qed.

Lemma m_Group r st k :
  m T fl (Group r) st k = m T fl r st (fun st1 => k (capture st st1)).
Proof. done. Qed.

Lemma m_Rep0 greedy cs st k :
  m T fl (Rep greedy 0 cs) st k = rep_star T fl greedy cs (rest st) st k.
Proof. done. Qed.

Lemma m_Str w st k :
  m T fl (Str w) st k
  = if lit_prefix fl w (rest st) then k (skip (length w) st) else None.
Proof.
  revert st; induction w as [|a w IH]; intros st; [done|].
  destruct w as [|a' w'].
  - simpl. destruct (rest st) as [|c t]; [done|]. simpl.
    rewrite andb_true_r. done.
  - change (Str (a :: a' :: w')) with (Seq (One (CChr a)) (Str (a' :: w'))).
    cbn [m]. destruct (rest st) as [|c t] eqn:E; [done|].
    cbn [lit_prefix cset_match length skip]. rewrite E.
    destruct (if IGNORECASE fl then lower a =? lower c else a =? c); [|done].
    rewrite IH. done.
Qed.

Lemma lit_prefix_caseless w s :
  forallb caseless w = true -> lit_prefix fl w s = startswith w s.
Proof.
  revert s; induction w as [|a w IH]; intros [|c s]; simpl; try done.
  intros [Ha Hw]%andb_true_iff. rewrite IH by done.
  destruct (IGNORECASE fl); [|done]. by rewrite lower_eqb_caseless.
Qed.


(** The greedy [\s*] reads all the leading whitespace when the
    continuation accepts what follows it. *)
Lemma star_space_greedy s st k x :
  (forall b, k {| before := b; rest := lstrip s; group1 := group1 st |} = Some x) ->
  rep_star T fl true CSpace s st k = Some x.
Proof.
  revert st; induction s as [|c t IH]; intros st Hk; simpl.
  - apply Hk.
  - simpl in Hk. destruct (isspace c) eqn:E.
    + rewrite IH; [done|]. intros b. apply Hk.
    + apply Hk.
Qed.

(** The lazy star stops at the first place the continuation accepts. *)
Lemma star_lazy_first cs u v st k x :
  Forall (fun c => cset_match T fl cs c = true) u ->
  (forall u1 u2 b, u = u1 ++ u2 -> u2 <> [] ->
     k {| before := b; rest := u2 ++ v; group1 := group1 st |} = None) ->
  (forall b, k {| before := b; rest := v; group1 := group1 st |} = Some x) ->
  rep_star T fl false cs (u ++ v) st k = Some x.
Proof.
  revert st; induction u as [|c u IH]; intros st Hcs Hfail Hok.
  - simpl. destruct v as [|c t]; simpl; [apply Hok|]. by rewrite Hok.
  - simpl. rewrite (Hfail [] (c :: u)) by done.
    apply Forall_cons in Hcs as [-> Hcs].
    apply IH; [done| |done].
    intros u1 u2 b -> Hne. by apply (Hfail (c :: u1) u2).
Qed.

(** [search_from] moves on while the pattern matches nowhere. *)
Lemma search_from_skip r pre s :
  (forall u1 u2 b, pre = u1 ++ u2 -> u2 <> [] ->
     m T fl r {| before := b; rest := u2 ++ s; group1 := None |} Some = None) ->
  forall pos b, exists b',
    search_from T fl r pos b (pre ++ s)
    = search_from T fl r (pos + length pre) b' s.
Proof.
  induction pre as [|c pre IH]; intros Hfail pos b.
  - exists b. simpl. by rewrite Nat.add_0_r.
  - simpl. rewrite (Hfail [] (c :: pre)) by done.
    destruct (IH (fun u1 u2 b Hu Hne => Hfail (c :: u1) u2 b (f_equal (cons c) Hu) Hne)
                (S pos) (Some c)) as [b' Hb'].
    exists b'. rewrite Hb'. f_equal. lia.
Qed.

Lemma search_from_none r s :
  (forall u1 u2 b, s = u1 ++ u2 ->
     m T fl r {| before := b; rest := u2; group1 := None |} Some = None) ->
  forall pos b, search_from T fl r pos b s = None.
Proof.
  induction s as [|c s IH]; intros Hfail pos b; simpl.
  - by rewrite (Hfail [] []).
  - rewrite (Hfail [] (c :: s)) by done. apply IH.
    intros u1 u2 b' ->. by apply (Hfail (c :: u1) u2).
Qed.

Lemma search_from_some r pos b s mt :
  search_from T fl r pos b s = Some mt ->
  exists u1 u2 b' st',
    s = u1 ++ u2 /\
    m T fl r {| before := b'; rest := u2; group1 := None |} Some = Some st' /\
    m_group1 mt = group1 st'.
Proof.
  revert pos b; induction s as [|c s IH]; intros pos b; simpl.
  - destruct (m T fl r _ Some) as [st'|] eqn:E; [|done].
    intros [= <-]. by exists [], [], b, st'.
  - destruct (m T fl r _ Some) as [st'|] eqn:E.
    + intros [= <-]. by exists [], (c :: s), b, st'.
    + intros H. destruct (IH _ _ H) as (u1 & u2 & b' & st' & -> & H1 & H2).
      by exists (c :: u1), u2, b', st'.
Qed.

(** A match at some place makes the scan succeed (at that place or
    before). *)
Lemma search_from_found r u s pos b st' :
  m T fl r {| before := after b u; rest := s; group1 := None |} Some = Some st' ->
  exists mt, search_from T fl r pos b (u ++ s) = Some mt.
Proof.
  revert pos b; induction u as [|c u IH]; intros pos b H.
  - unfold after in H; simpl in H.
    destruct s as [|c s]; simpl; rewrite H; by eexists.
  - simpl.
    destruct (m T fl r {| before := b; rest := c :: u ++ s; group1 := None |} Some)
      as [y|]; [by eexists|].
    apply IH. by rewrite after_cons in H.
Qed.


(** [findall] returns nothing exactly when [search] finds nothing: the
    test [len(test_methods) == 0] does not depend on the fuel. *)
Lemma findall_nil r s : findall T fl r s = [] <-> search T fl r s = None.
Proof.
  unfold findall, search. cbn [findall_from].
  by destruct (search_from T fl r 0 None s).
Qed.

End Eval.

End ReEval.

(** * The code extractor *)

Module Extractor.
Import ReFacts PyStrFacts ReEval.

Section Extract.

Context (T : char -> bool).

Local Abbreviation fl := code_block_flags.

Lemma lit_prefix_ci w s :
  lit_prefix fl w s = true <-> lower <$> take (length w) s = lower <$> w.
Proof.
  revert s; induction w as [|a w IH]; intros [|c s]; simpl; try done.
  rewrite andb_true_iff, N.eqb_eq. split.
  - intros [-> H%IH]. by f_equal.
  - intros [= -> H]. split; [done|]. by apply IH.
Qed.

Lemma m_opt_nl st k :
  m T fl (Opt (One (CChr NL))) st k
  = match rest st with
    | c :: t =>
        if c =? NL then
          match k (advance c t st) with Some x => Some x | None => k st end
        else k st
    | [] => k st
    end.
Proof.
  cbn [m]. destruct (rest st) as [|c t]; [done|].
  cbn [cset_match IGNORECASE code_block_flags].
  rewrite lower_eqb_caseless by done. rewrite (N.eqb_sym NL c).
  by destruct (c =? NL).
Qed.

Lemma m_opt_nl_skip st k :
  match rest st with c :: _ => (c =? NL) = false | [] => True end ->
  m T fl (Opt (One (CChr NL))) st k = k st.
Proof. rewrite m_opt_nl. destruct (rest st); [done|]. by intros ->. Qed.

Lemma m_block_close st :
  m T fl pat_block_close st Some
  = match rest st with
    | c :: t =>
        if (c =? NL) && startswith FENCE t then Some (skip 3 (advance c t st))
        else if startswith FENCE (c :: t) then Some (skip 3 st)
        else None
    | [] => None
    end.
Proof.
  unfold pat_block_close, Cat. cbn [foldr]. rewrite m_Seq, m_opt_nl.
  destruct (rest st) as [|c t] eqn:E.
  - rewrite m_Seq, m_Str, E. done.
  - rewrite !m_Seq, !m_Str, !lit_prefix_caseless, E by done. cbn [rest advance m].
    by destruct (c =? NL), (startswith FENCE t).
Qed.

Lemma block_close_accepts st e post :
  rest st = e ++ FENCE ++ post -> e = [NL] \/ e = [] ->
  m T fl pat_block_close st Some
  = Some {| before := Some 96; rest := post; group1 := group1 st |}.
Proof.
  intros Hrest He. rewrite m_block_close, Hrest.
  change (FENCE ++ post) with (96 :: 96 :: 96 :: post).
  destruct He as [->| ->]; cbn [app].
  - change (startswith FENCE (96 :: 96 :: 96 :: post)) with true.
    rewrite N.eqb_refl. done.
  - change (startswith FENCE (96 :: 96 :: 96 :: post)) with true.
    change (96 =? NL) with false. cbn [andb].
    by rewrite (skip_eq FENCE post st Hrest : skip 3 st = _).
Qed.

Lemma fence_absent a a1 a2 post :
  find FENCE (a ++ FENCE) = Some (length a) ->
  a = a1 ++ a2 -> a2 <> [] ->
  startswith FENCE (a2 ++ FENCE ++ post) = false.
Proof.
  intros Hfind Ha Hne. rewrite app_assoc, startswith_app_long.
  - by eapply find_first_split.
  - rewrite length_app. simpl. lia.
Qed.

Lemma find_lstrip body :
  find FENCE (body ++ FENCE) = Some (length body) ->
  find FENCE (lstrip body ++ FENCE) = Some (length (lstrip body)).
Proof.
  induction body as [|c body IH]; [done|]. simpl lstrip.
  destruct (isspace c); [|done].
  intros H. change (find FENCE (c :: (body ++ FENCE)) = Some (S (length body))) in H.
  apply find_cons_S in H as [_ H]. by apply IH.
Qed.

(** From the end of the tag on: the whitespace is skipped, the group
    stops in front of the closing fence (and of the newline before it,
    if there is one), so that it captures the body up to whitespace. *)
Lemma m_block_tail st body post :
  rest st = body ++ FENCE ++ post ->
  find FENCE (body ++ FENCE) = Some (length body) ->
  exists st' cap,
    m T fl pat_block_tail st Some = Some st'
    /\ group1 st' = Some cap /\ strip cap = strip body.
Proof.
  intros Hrest Hfind%find_lstrip.
  assert (exists u e, lstrip body = u ++ e
                      /\ (e = [NL] \/ e = [] /\ last u <> Some NL))
    as (u & e & Hu & He).
  { destruct (decide (last (lstrip body) = Some NL)) as [Hl|Hl].
    - apply last_Some in Hl as [u Hu]. exists u, [NL]. auto.
    - exists (lstrip body), []. rewrite app_nil_r. auto. }
  exists {| before := Some 96; rest := post; group1 := Some u |}, u.
  split; [|split; [done|]].
  - unfold pat_block_tail, Cat. cbn [foldr]. rewrite m_Seq, m_Rep0, Hrest.
    apply star_space_greedy. intros b.
    change (FENCE ++ post) with (96 :: 96 :: 96 :: post).
    rewrite lstrip_app_stop by done.
    rewrite m_Seq, m_opt_nl_skip.
    2:{ cbn [rest]. destruct (lstrip body) as [|c t] eqn:E; [done|]. simpl.
        apply lstrip_head in E. apply N.eqb_neq. by intros ->. }
    rewrite m_Seq, m_Group, m_Rep0. cbn [rest].
    change (96 :: 96 :: 96 :: post) with (FENCE ++ post). rewrite Hu, <- app_assoc.
    change (Seq (Opt (One (CChr NL))) (Seq (Str FENCE) Eps)) with pat_block_close.
    apply star_lazy_first.
    + by apply Forall_true.
    + intros u1 u2 b' -> Hne.
      rewrite m_block_close. cbn [rest capture].
      destruct u2 as [|c u2]; [done|]. cbn [app].
      assert (H1 : startswith FENCE (c :: u2 ++ e ++ FENCE ++ post) = false).
      { replace (c :: u2 ++ e ++ FENCE ++ post)
          with (((c :: u2) ++ e) ++ FENCE ++ post) by (by rewrite <- app_assoc).
        apply (fence_absent (lstrip body) u1); [done| |done].
        by rewrite Hu, <- app_assoc. }
      rewrite H1.
      destruct (N.eqb_spec c NL) as [->|Hc]; [|done]. cbn [andb].
      destruct u2 as [|c2 u2].
      * destruct He as [->|[-> Hl]]; [done|].
        exfalso. apply Hl. by rewrite last_snoc.
      * replace ((c2 :: u2) ++ e ++ FENCE ++ post)
          with (((c2 :: u2) ++ e) ++ FENCE ++ post) by (by rewrite <- app_assoc).
        rewrite (fence_absent (lstrip body) (u1 ++ [NL])); [done|done| |done].
        by rewrite Hu, <- !app_assoc.
    + intros b'.
      rewrite (block_close_accepts _ e post) by (by destruct He as [->|[-> _]]; auto).
      unfold capture. cbn [rest group1].
      by rewrite length_app, Nat.add_sub, take_app_length.
  - rewrite <- (strip_lstrip body), Hu.
    destruct He as [->|[-> _]]; [by rewrite strip_snoc_space|by rewrite app_nil_r].
Qed.

Lemma pat_code_block_eq :
  pat_code_block
  = Seq (Str FENCE) (Seq (Opt (Str (py "java"))) pat_block_tail).
Proof. done. Qed.

(** Without an opening fence at the cursor there is no match. *)
Lemma m_code_block_no_fence st k :
  startswith FENCE (rest st) = false ->
  m T fl pat_code_block st k = None.
Proof.
  intros H. rewrite pat_code_block_eq, m_Seq, m_Str, lit_prefix_caseless by done.
  by rewrite H.
Qed.

Lemma lit_prefix_java_app body post :
  lit_prefix fl (py "java") (body ++ FENCE ++ post) = true ->
  lower <$> take 4 body = py "java".
Proof.
  intros H%lit_prefix_ci. change (length (py "java")) with 4%nat in H.
  change (lower <$> py "java") with (py "java") in H.
  change (FENCE ++ post) with (96 :: 96 :: 96 :: post) in H.
  destruct body as [|a [|b [|c [|d body]]]]; try done;
    cbn in H; repeat (injection H as ? H); discriminate.
Qed.

(** At an opening fence that a closing fence follows, the pattern matches
    and its group captures the body of the block, up to whitespace. *)
Lemma m_code_block st tag body post :
  rest st = FENCE ++ tag ++ body ++ FENCE ++ post ->
  tagged_java tag \/ untagged tag body ->
  find FENCE (body ++ FENCE) = Some (length body) ->
  exists st' cap,
    m T fl pat_code_block st Some = Some st'
    /\ group1 st' = Some cap /\ strip cap = strip body.
Proof.
  intros Hrest Htag Hfind.
  rewrite pat_code_block_eq, m_Seq, m_Str, lit_prefix_caseless by done.
  rewrite Hrest, startswith_app, (skip_eq _ _ _ Hrest).
  cbn [m]. rewrite m_Str. cbn [rest].
  destruct Htag as [Htag|[-> Hno]].
  - assert (Hlen : length tag = 4%nat).
    { apply (f_equal length) in Htag. by rewrite length_fmap in Htag. }
    assert (Hpre : lit_prefix fl (py "java") (tag ++ body ++ FENCE ++ post) = true).
    { apply lit_prefix_ci. change (length (py "java")) with 4%nat.
      rewrite <- Hlen, take_app_length. done. }
    rewrite Hpre. change (length (py "java")) with 4%nat. rewrite <- Hlen.
    erewrite skip_eq by done. cbn [group1 before].
    edestruct (m_block_tail
                 {| before := after (after (before st) FENCE) tag;
                    rest := body ++ FENCE ++ post; group1 := group1 st |}
                 body post) as (st' & cap & H1 & H2 & H3); [done..|].
    exists st', cap. by rewrite H1.
  - cbn [app].
    destruct (lit_prefix fl (py "java") (body ++ FENCE ++ post)) eqn:E.
    { by apply lit_prefix_java_app in E. }
    edestruct (m_block_tail
                 {| before := after (before st) FENCE;
                    rest := body ++ FENCE ++ post; group1 := group1 st |}
                 body post) as (st' & cap & H1 & H2 & H3); [done..|].
    exists st', cap. by rewrite H1.
Qed.

Lemma search_from_unfold fl' r pos b s :
  search_from T fl' r pos b s
  = match m T fl' r {| before := b; rest := s; group1 := None |} Some with
    | Some st =>
        let n := (length s - length (rest st))%nat in
        Some {| m_start := pos; m_end := (pos + n)%nat; group0 := take n s;
                m_group1 := group1 st |}
    | None =>
        match s with
        | [] => None
        | c :: t => search_from T fl' r (S pos) (Some c) t
        end
    end.
Proof. by destruct s. Qed.

(** The scan finds the first fenced block. *)
Lemma search_code_block pre tag body post :
  find FENCE (pre ++ FENCE ++ tag ++ body ++ FENCE ++ post) = Some (length pre) ->
  tagged_java tag \/ untagged tag body ->
  find FENCE (body ++ FENCE) = Some (length body) ->
  exists mt cap,
    search T fl pat_code_block (pre ++ FENCE ++ tag ++ body ++ FENCE ++ post)
    = Some mt
    /\ group_1 mt = Some cap /\ strip cap = strip body.
Proof.
  intros Hpre Htag Hfind. unfold search.
  edestruct (search_from_skip T fl pat_code_block pre
               (FENCE ++ tag ++ body ++ FENCE ++ post)) as [b' ->].
  { intros u1 u2 b Hu Hne. apply m_code_block_no_fence. cbn [rest].
    by eapply find_first_split. }
  rewrite search_from_unfold.
  edestruct (m_code_block
               {| before := b'; rest := FENCE ++ tag ++ body ++ FENCE ++ post;
                  group1 := None |} tag body post)
    as (st' & cap & H1 & H2 & H3); [done..|].
  rewrite H1. eexists _, cap. split; [done|]. by split.
Qed.

(** Without two fences the pattern matches nowhere. *)
Lemma search_code_block_none s :
  no_fenced_block s -> search T fl pat_code_block s = None.
Proof.
  intros Hno. apply search_from_none. intros u1 u2 b ->.
  destruct (startswith FENCE u2) eqn:E; [|by apply m_code_block_no_fence].
  apply startswith_true in E. set (w := drop (length FENCE) u2) in E.
  clearbody w.
  rewrite pat_code_block_eq, m_Seq, m_Str, lit_prefix_caseless by done.
  cbn [rest]. rewrite E at 1. rewrite startswith_app.
  erewrite skip_eq by exact E.
  unfold pat_block_tail, Cat. cbn [foldr].
  assert (Hbase : fails_below w (fun st => m T fl (Seq (Str FENCE) Eps) st Some)).
  { intros st [y Hy]. rewrite m_Seq, m_Str, lit_prefix_caseless by done.
    destruct (startswith FENCE (rest st)) eqn:E'; [|done].
    apply startswith_true in E'. exfalso.
    apply (Hno u1 y (drop (length FENCE) (rest st))).
    by rewrite E, Hy, <- E'. }
  rewrite m_Seq. apply m_none. cbn [rest].
  do 4 apply fails_below_Seq. exact Hbase.
Qed.

(** The group of the pattern takes part in every match. *)
Lemma search_code_block_group s mt :
  search T fl pat_code_block s = Some mt -> exists cap, group_1 mt = Some cap.
Proof.
  intros (u1 & u2 & b & st' & _ & H & Hg)%search_from_some.
  unfold group_1. rewrite Hg. clear Hg.
  unfold pat_code_block, Cat in H. cbn [foldr] in H.
  do 4 (rewrite m_Seq in H; apply m_some in H as (? & H & _)).
  rewrite m_Seq, m_Group in H. apply m_some in H as (st4 & H & _).
  apply m_some in H as (st5 & [= <-] & Hg). rewrite Hg by done. by eexists.
Qed.

(** Every text with two fences has a first fenced block in the sense of
    [extract_fenced]: the two cases of the extractor are exhaustive. *)
Lemma find_leftmost p a b :
  exists pre post,
    a ++ p ++ b = pre ++ p ++ post
    /\ find p (a ++ p ++ b) = Some (length pre)
    /\ exists d, a = pre ++ d.
Proof.
  induction a as [|c a (pre & post & E & Hf & d & Hd)].
  - exists [], b. split; [done|]. split; [|by exists []].
    simpl. destruct (p ++ b) eqn:E; cbn [find]; rewrite <- ?E, startswith_app; done.
  - destruct (startswith p ((c :: a) ++ p ++ b)) eqn:Hs.
    + exists [], (drop (length p) ((c :: a) ++ p ++ b)).
      split; [by apply startswith_true|]. split; [|by exists (c :: a)].
      simpl in *. by rewrite Hs.
    + exists (c :: pre), post. split; [by rewrite <- !app_comm_cons, E|].
      split; [|exists d; by rewrite Hd].
      rewrite <- app_comm_cons in *. cbn [find]. rewrite Hs, Hf. done.
Qed.

Lemma find_first_intro p a s :
  startswith p s = true ->
  (forall a1 a2, a = a1 ++ a2 -> a2 <> [] -> startswith p (a2 ++ s) = false) ->
  find p (a ++ s) = Some (length a).
Proof.
  intros Hs. induction a as [|c a IH]; intros Hfail.
  - simpl. destruct s; cbn [find]; by rewrite Hs.
  - pose proof (Hfail [] (c :: a) eq_refl) as H0.
    rewrite <- app_comm_cons in *. cbn [find]. rewrite H0 by done.
    rewrite IH; [done|]. intros a1 a2 -> Hne. by apply (Hfail (c :: a1) a2).
Qed.

Lemma find_drop_post body post :
  find FENCE (body ++ FENCE ++ post) = Some (length body) ->
  find FENCE (body ++ FENCE) = Some (length body).
Proof.
  intros H. apply find_first_intro; [done|].
  intros a1 a2 Ha Hne.
  rewrite <- (startswith_app_long FENCE (a2 ++ FENCE) post).
  - rewrite <- app_assoc. by eapply find_first_split.
  - rewrite length_app. simpl. lia.
Qed.

Lemma first_block_exists a b c :
  exists pre tag body post,
    a ++ FENCE ++ b ++ FENCE ++ c = pre ++ FENCE ++ tag ++ body ++ FENCE ++ post
    /\ find FENCE (a ++ FENCE ++ b ++ FENCE ++ c) = Some (length pre)
    /\ (tagged_java tag \/ untagged tag body)
    /\ find FENCE (body ++ FENCE) = Some (length body).
Proof.
  destruct (find_leftmost FENCE a (b ++ FENCE ++ c))
    as (pre & r & E & Hpre & d & ->).
  rewrite E. rewrite E in Hpre. exists pre.
  rewrite <- app_assoc in E. apply app_inv_head in E.
  (* what follows the first fence holds a fence *)
  assert (exists x, r = x ++ FENCE ++ c) as [x ->].
  { exists (drop 3 (d ++ FENCE ++ b)).
    apply (f_equal (drop 3)) in E. change (drop 3 (FENCE ++ r)) with r in E.
    rewrite <- E.
    replace (d ++ FENCE ++ b ++ FENCE ++ c) with ((d ++ FENCE ++ b) ++ FENCE ++ c)
      by (by rewrite <- !app_assoc).
    rewrite drop_app_le; [done|]. rewrite !length_app. simpl. lia. }
  clear E.
  destruct (lit_prefix fl (py "java") (x ++ FENCE ++ c)) eqn:Hj.
  - assert (exists tag x', x = tag ++ x' /\ length tag = 4%nat) as (tag & x' & -> & Hlen).
    { change (FENCE ++ c) with (96 :: 96 :: 96 :: c) in Hj.
      destruct x as [|c1 [|c2 [|c3 [|c4 x]]]]; try (by vm_compute in Hj);
        try (apply lit_prefix_ci in Hj; cbn in Hj;
             repeat (injection Hj as ? Hj); discriminate).
      by exists [c1; c2; c3; c4], x. }
    apply lit_prefix_ci in Hj. change (length (py "java")) with 4%nat in Hj.
    rewrite <- app_assoc, <- Hlen, take_app_length in Hj.
    destruct (find_leftmost FENCE x' c) as (body & post & E & Hb & _).
    exists tag, body, post. rewrite <- app_assoc, E.
    split; [done|]. split; [by rewrite <- app_assoc, E in Hpre|].
    split; [by left|]. rewrite E in Hb. by apply find_drop_post in Hb.
  - destruct (find_leftmost FENCE x c) as (body & post & E & Hb & _).
    exists [], body, post. cbn [app]. rewrite E.
    split; [done|]. split; [by rewrite E in Hpre|].
    rewrite E in Hb, Hj. split; [|by apply find_drop_post in Hb].
    right. split; [done|]. intros Ht.
    assert (Hlen : (4 <= length body)%nat).
    { apply (f_equal length) in Ht. rewrite length_fmap, length_take in Ht.
      change (length (py "java")) with 4%nat in Ht. lia. }
    assert (lit_prefix fl (py "java") (body ++ FENCE ++ post) = true); [|congruence].
    apply lit_prefix_ci. change (length (py "java")) with 4%nat.
    by rewrite take_app_le by done.
Qed.

Lemma find_None_absent p s : find p s = None -> forall a b, s <> a ++ p ++ b.
Proof.
  intros H a b ->. destruct (find_leftmost p a b) as (? & ? & _ & Hf & _).
  by rewrite Hf in H.
Qed.

Lemma find_Some_split p s n :
  find p s = Some n -> exists pre post, s = pre ++ p ++ post /\ length pre = n.
Proof.
  revert n; induction s as [|c s IH]; intros n; cbn [find].
  - destruct (startswith p []) eqn:E; [|done]. intros [= <-].
    exists [], []. by destruct p.
  - destruct (startswith p (c :: s)) eqn:E.
    + intros [= <-]. exists [], (drop (length p) (c :: s)).
      split; [by apply startswith_true|done].
    + destruct (find p s) as [k|]; [|done]. intros [= <-].
      destruct (IH k eq_refl) as (pre & post & -> & <-).
      by exists (c :: pre), post.
Qed.

(** A text has no fenced block, or it has a first one. *)
Lemma fenced_block_cases s :
  no_fenced_block s
  \/ exists pre tag body post,
       s = pre ++ FENCE ++ tag ++ body ++ FENCE ++ post
       /\ find FENCE s = Some (length pre)
       /\ (tagged_java tag \/ untagged tag body)
       /\ find FENCE (body ++ FENCE) = Some (length body).
Proof.
  destruct (find FENCE s) as [n|] eqn:E1.
  - destruct (find_Some_split _ _ _ E1) as (pre & r & -> & <-).
    destruct (find FENCE r) as [k|] eqn:E2.
    + destruct (find_Some_split _ _ _ E2) as (x & c & -> & _).
      right. rewrite <- E1. apply first_block_exists.
    + left. intros a b c E.
      destruct (first_block_exists a b c) as (pre' & tag & body & post & E' & Hf & _).
      rewrite <- E, E1 in Hf. injection Hf as Hlen. rewrite <- E in E'.
      apply app_inj_1 in E' as [_ E']; [|done]. apply app_inv_head in E'.
      eapply (find_None_absent _ _ E2 (tag ++ body) post).
      by rewrite E', <- app_assoc.
  - left. intros a b c. apply (find_None_absent _ _ E1).
Qed.

(** The extractor always returns a text. *)
Lemma extract_total self s : exists code, _extract_java_code T self s = Ok code.
Proof.
  unfold _extract_java_code.
  destruct (search T fl pat_code_block s) as [mt|] eqn:E.
  - destruct (search_code_block_group _ _ E) as [cap Hcap].
    unfold group_1_str. rewrite Hcap. by eexists.
  - destruct (split_first_line (strip s)) as [ls ->].
    destruct (_ || _); by eexists.
Qed.

Lemma extract_fenced self pre tag body post :
  find FENCE (pre ++ FENCE ++ tag ++ body ++ FENCE ++ post) = Some (length pre) ->
  tagged_java tag \/ untagged tag body ->
  find FENCE (body ++ FENCE) = Some (length body) ->
  _extract_java_code T self (pre ++ FENCE ++ tag ++ body ++ FENCE ++ post)
  = Ok (strip body).
Proof.
  intros Hpre Htag Hfind.
  destruct (search_code_block _ _ _ _ Hpre Htag Hfind) as (mt & cap & H & Hg & Hs).
  unfold _extract_java_code, group_1_str. rewrite H, Hg. simpl. by rewrite Hs.
Qed.

Lemma extract_fallback self s :
  no_fenced_block s ->
  _extract_java_code T self s
  = Ok (if begins_like_code (strip s) then strip s else []).
Proof.
  intros Hno. unfold _extract_java_code. rewrite search_code_block_none by done.
  destruct (split_first_line (strip s)) as [ls ->]. unfold begins_like_code.
  by destruct (_ || _).
Qed.

End Extract.

End Extractor.

(** * The safety screen, the structure checks and the orchestrator *)

Module ValidatorFacts.
Import ReFacts PyStrFacts ReEval Extractor.

Section Facts.

Context (T : char -> bool).

Lemma foldl_issues code (l : list (regex * text)) acc :
  foldl (fun issues '(pattern, msg) =>
           match search T NOFLAGS pattern code with
           | Some _ => issues ++ [msg]
           | None => issues
           end) acc l
  = acc ++ (filter (fun p => is_Some (search T NOFLAGS p.1 code)) l).*2.
Proof.
  revert acc; induction l as [|[p msg] l IH]; intros acc.
  - simpl. by rewrite app_nil_r.
  - cbn [foldl]. rewrite IH, filter_cons. cbn [fst].
    destruct (search T NOFLAGS p code) as [mt|].
    + rewrite decide_True by eauto. simpl. by rewrite <- app_assoc.
    + rewrite decide_False by (by intros [? ?]). done.
Qed.

Lemma check_safety_issues self code :
  (_check_safety T self code).2 = triggered T self code.
Proof. unfold _check_safety, triggered. cbn [snd]. by rewrite foldl_issues. Qed.

Lemma check_safety_flag self code :
  (_check_safety T self code).1 = true <-> triggered T self code = [].
Proof.
  rewrite <- check_safety_issues. unfold _check_safety. cbn [fst snd].
  rewrite Nat.eqb_eq. apply length_zero_iff_nil.
Qed.

Lemma triggered_nonempty self code :
  Exists (fun p => is_Some (search T NOFLAGS p.1 code)) (dangerous_patterns self)
  <-> triggered T self code <> [].
Proof.
  unfold triggered. rewrite Exists_exists. split.
  - intros (p & Hin & Hp) Hnil. apply fmap_nil_inv in Hnil.
    assert (p ∈ filter (fun p => is_Some (search T NOFLAGS p.1 code))
                  (dangerous_patterns self))
      by (by apply list_elem_of_filter).
    rewrite Hnil in H. by apply not_elem_of_nil in H.
  - intros Hne.
    destruct (filter _ (dangerous_patterns self)) as [|p l] eqn:E; [done|].
    assert (Hp : p ∈ filter (fun p => is_Some (search T NOFLAGS p.1 code))
                   (dangerous_patterns self)) by (rewrite E; left).
    apply list_elem_of_filter in Hp as [Hp Hin]. by exists p.
Qed.

(** No danger pattern of the class matches the empty text. *)
Lemma triggered_empty : triggered T JavaTestValidator_init [] = [].
Proof. done. Qed.

(** The group of the class-name pattern takes part in every match. *)
Lemma search_public_class_group s mt :
  search T NOFLAGS pat_public_class s = Some mt ->
  exists name, group_1 mt = Some name.
Proof.
  intros (u1 & u2 & b & st' & _ & H & Hg)%search_from_some.
  unfold group_1. rewrite Hg. clear Hg.
  unfold pat_public_class, Cat in H. cbn [foldr] in H.
  do 4 (rewrite m_Seq in H; apply m_some in H as (? & H & _)).
  rewrite m_Seq, m_Group in H.
  apply m_some in H as (st5 & [= <-] & _). by eexists.
Qed.

Lemma check_structure_total self code target :
  exists issues, _check_structure T self code target = Ok issues.
Proof.
  unfold _check_structure.
  destruct (search T NOFLAGS pat_public_class code) as [mt|] eqn:E.
  - destruct (search_public_class_group _ _ E) as [name Hn].
    unfold group_1_str. rewrite Hn. by eexists.
  - by eexists.
Qed.

(** The three exits of [validate]. *)
Lemma validate_no_code self raw target :
  _extract_java_code T self raw = Ok [] ->
  validate T self raw target
  = Ok {| valid := false; clean_code := [];
          errors := [py "未找到有效的 ```java 代码块"];
          warnings := []; suggestions := [] |}.
Proof. intros H. unfold validate. by rewrite H. Qed.

Lemma validate_unsafe self raw target code :
  _extract_java_code T self raw = Ok code -> code <> [] ->
  triggered T self code <> [] ->
  validate T self raw target
  = Ok {| valid := false; clean_code := code;
          errors := triggered T self code;
          warnings := []; suggestions := [] |}.
Proof.
  intros H Hne Htr. unfold validate. rewrite H. cbn [mbind result_bind].
  destruct code as [|c code]; [done|]. cbn [truthy negb].
  pose proof (check_safety_issues self (c :: code)) as Hi.
  pose proof (check_safety_flag self (c :: code)) as Hf.
  destruct (_check_safety T self (c :: code)) as [safe issues].
  cbn [fst snd] in *. subst issues.
  destruct safe; [exfalso; by apply Htr, Hf|done].
Qed.

Lemma validate_safe self raw target code :
  _extract_java_code T self raw = Ok code -> code <> [] ->
  triggered T self code = [] ->
  exists issues,
    _check_structure T self code target = Ok issues
    /\ validate T self raw target
       = Ok {| valid := (length (i_errors issues) =? 0)%nat; clean_code := code;
               errors := i_errors issues; warnings := i_warnings issues;
               suggestions := i_suggestions issues |}.
Proof.
  intros H Hne Htr. unfold validate. rewrite H. cbn [mbind result_bind].
  destruct code as [|c code]; [done|]. cbn [truthy negb].
  pose proof (check_safety_flag self (c :: code)) as Hf.
  destruct (_check_safety T self (c :: code)) as [safe issues'].
  cbn [fst snd] in *. apply Hf in Htr as ->. cbn [negb].
  destruct (check_structure_total self (c :: code) target) as [issues Hi].
  exists issues. split; [done|]. by rewrite Hi.
Qed.

(** [validate] never raises, and leaves by one of its three exits. *)
Lemma validate_exits self raw target :
  exists code r,
    _extract_java_code T self raw = Ok code
    /\ validate T self raw target = Ok r
    /\ validate_exit T self target code r.
Proof.
  destruct (extract_total T self raw) as [code Hc]. exists code.
  destruct (decide (code = [])) as [->|Hne].
  - eexists. split; [done|]. split; [by apply validate_no_code|]. constructor.
  - destruct (decide (triggered T self code = [])) as [Ht|Ht].
    + destruct (validate_safe self raw target _ Hc) as (i & Hi & ->); [done..|].
      eexists. split; [done|]. split; [done|]. by constructor.
    + eexists. split; [done|]. split; [by apply validate_unsafe|].
      by constructor.
Qed.

Lemma validate_total self raw target :
  exists r, validate T self raw target = Ok r.
Proof. destruct (validate_exits self raw target) as (? & r & _ & ? & _). eauto. Qed.

(** The report of [validate] is valid exactly when it has no error. *)
Lemma validate_exit_valid self target code r :
  validate_exit T self target code r -> valid r = (length (errors r) =? 0)%nat.
Proof.
  intros [|code' Hne Ht|code' issues Hne Ht Hi]; cbn [valid errors]; [done| |done].
  by destruct (triggered T self code').
Qed.

Lemma validate_java_test_eq raw target strict lg base :
  validate T JavaTestValidator_init raw target = Ok base ->
  validate_java_test T raw target strict lg
  = (Ok (escalate strict base), logger_debug (escalate strict base) lg).
Proof. intros H. unfold validate_java_test. by rewrite H. Qed.

Lemma escalate_strict r :
  warnings r <> [] ->
  escalate true r
  = {| valid := false; clean_code := clean_code r;
       errors := errors r ++ warnings r; warnings := warnings r;
       suggestions := suggestions r |}.
Proof. unfold escalate. by destruct (warnings r). Qed.

End Facts.

End ValidatorFacts.

(** * The properties of the specification *)

Import ReFacts PyStrFacts ReEval Extractor ValidatorFacts.

Lemma contains_app p a b : contains p (a ++ p ++ b) = true.
Proof.
  induction a as [|c a IH]; simpl.
  - destruct (p ++ b) eqn:E; simpl; rewrite <- ?E, startswith_app; done.
  - rewrite IH. apply orb_true_r.
Qed.

(** A text without a fence has no fenced block. *)
Lemma no_fence_no_block s : contains FENCE s = false -> no_fenced_block s.
Proof. intros H a b c ->. by rewrite contains_app in H. Qed.

Section ValidatorClaims.

Context (T : char -> bool).

(** C8 (as amended).  The extractor looks at the first triple backtick of
    the text only.  When a later triple backtick closes it, the extractor
    returns the trimmed text between the two, after the letters "java" in
    either case if they directly follow the opening fence, whatever comes
    after the closing fence; anything else that follows the opening fence,
    the tag of another language included, is part of what is returned.
    When the text has no two fences, the trimmed text is returned if its
    first line begins with "public class" or "import", and the empty text
    otherwise.  The extractor never raises, and the two cases cover every
    text. *)
Theorem extract_java_code_spec (self : JavaTestValidator) (text_ : text) :
  (forall pre tag body post,
     text_ = pre ++ FENCE ++ tag ++ body ++ FENCE ++ post ->
     find FENCE text_ = Some (length pre) ->
     tagged_java tag \/ untagged tag body ->
     find FENCE (body ++ FENCE) = Some (length body) ->
     _extract_java_code T self text_ = Ok (strip body))
  /\ (no_fenced_block text_ ->
      _extract_java_code T self text_
      = Ok (if begins_like_code (strip text_) then strip text_ else []))
  /\ raises (_extract_java_code T self text_) = false
  /\ (no_fenced_block text_
      \/ exists pre tag body post,
           text_ = pre ++ FENCE ++ tag ++ body ++ FENCE ++ post
           /\ find FENCE text_ = Some (length pre)
           /\ (tagged_java tag \/ untagged tag body)
           /\ find FENCE (body ++ FENCE) = Some (length body)).
Proof.
  split; [|split; [|split]].
  - intros pre tag body post -> Hpre Htag Hbody. by apply extract_fenced.
  - apply extract_fallback.
  - by destruct (extract_total T self text_) as [code ->].
  - apply fenced_block_cases.
Qed.

(** C4.  When the extracted code matches at least one danger pattern of
    the class, [validate] returns an invalid report whose errors are
    exactly the reasons of all the matching patterns, in the order of the
    pattern list; the report has no warning and no suggestion, so that no
    structure check contributed to it. *)
Theorem validate_unsafe_short_circuit (raw : text) (target : option text)
    (code : text) :
  _extract_java_code T JavaTestValidator_init raw = Ok code ->
  Exists (fun p => is_Some (search T NOFLAGS p.1 code))
         (dangerous_patterns JavaTestValidator_init) ->
  validate T JavaTestValidator_init raw target
  = Ok {| valid := false; clean_code := code;
          errors := triggered T JavaTestValidator_init code;
          warnings := []; suggestions := [] |}
  /\ (_check_safety T JavaTestValidator_init code).2
     = triggered T JavaTestValidator_init code.
Proof.
  intros Hcode Hex%triggered_nonempty. split; [|apply check_safety_issues].
  apply validate_unsafe; [done| |done].
  intros ->. by rewrite triggered_empty in Hex.
Qed.

(** C5.  For every raw text and every optional target class name,
    [validate] returns a report, and the report is valid if and only if
    its errors list is empty. *)
Theorem validate_valid_iff_no_errors (self : JavaTestValidator) (raw : text)
    (target : option text) :
  exists r, validate T self raw target = Ok r
            /\ (valid r = true <-> errors r = []).
Proof.
  destruct (validate_exits T self raw target) as (code & r & _ & Hr & Hexit).
  exists r. split; [done|].
  rewrite (validate_exit_valid T _ _ _ _ Hexit), Nat.eqb_eq.
  apply length_zero_iff_nil.
Qed.

(** C9.  [validate] returns a report whose [clean_code] is the extracted
    code whenever some code was extracted: also when the code fails the
    safety screen, in which case the report is invalid and carries the
    safety reasons.  [clean_code] is empty only when the extraction
    produced no code. *)
Theorem validate_keeps_dangerous_code (self : JavaTestValidator) (raw : text)
    (target : option text) :
  exists code r,
    _extract_java_code T self raw = Ok code
    /\ validate T self raw target = Ok r
    /\ (code <> [] -> clean_code r = code)
    /\ (code <> [] -> (_check_safety T self code).1 = false ->
        valid r = false /\ clean_code r = code
        /\ errors r = (_check_safety T self code).2)
    /\ (clean_code r = [] -> code = []).
Proof.
  destruct (validate_exits T self raw target) as (code & r & Hc & Hr & Hexit).
  exists code, r. split; [done|]. split; [done|].
  rewrite check_safety_issues.
  destruct Hexit as [|code Hne Ht|code issues Hne Ht Hi]; cbn [clean_code valid errors].
  - done.
  - done.
  - split; [done|]. split; [|done]. intros _ Hf.
    apply check_safety_flag in Ht. by rewrite Ht in Hf.
Qed.

(** C6.  [validate_java_test] returns a report.  In strict mode the
    report is never valid when [validate] produced a warning.  Without
    strict mode the report is the one of [validate], and it is valid if
    and only if its errors list is empty, whatever its warnings are. *)
Theorem strict_mode_monotone (raw : text) (target : option text)
    (strict : bool) (lg : Logger) :
  exists base final,
    validate T JavaTestValidator_init raw target = Ok base
    /\ (validate_java_test T raw target strict lg).1 = Ok final
    /\ (strict = true -> warnings base <> [] -> valid final = false)
    /\ (strict = false ->
        final = base /\ (valid final = true <-> errors final = [])).
Proof.
  destruct (validate_exits T JavaTestValidator_init raw target)
    as (code & base & _ & Hbase & Hvalid%validate_exit_valid).
  exists base, (escalate strict base).
  rewrite (validate_java_test_eq T _ _ _ _ _ Hbase). cbn [fst].
  split; [done|]. split; [done|]. split.
  - intros -> Hw. by rewrite escalate_strict.
  - intros ->. split; [done|]. unfold escalate. cbn [andb].
    rewrite Hvalid, Nat.eqb_eq. apply length_zero_iff_nil.
Qed.

(** C7.  Two successive runs of [validate_java_test] on the same raw
    text, target class name and strict setting return the same report:
    the second run starts from the logger the first one left, and the
    report does not depend on it. *)
Theorem validate_java_test_deterministic (raw : text) (target : option text)
    (strict : bool) (lg : Logger) :
  exists report lg1 lg2,
    validate_java_test T raw target strict lg = (Ok report, lg1)
    /\ validate_java_test T raw target strict lg1 = (Ok report, lg2).
Proof.
  destruct (validate_total T JavaTestValidator_init raw target) as [base Hbase].
  exists (escalate strict base), (logger_debug (escalate strict base) lg),
    (logger_debug (escalate strict base)
       (logger_debug (escalate strict base) lg)).
  split; by apply validate_java_test_eq.
Qed.

(** C10.  In strict mode, when [validate] produced at least one warning,
    the final errors are the errors of [validate] followed by its
    warnings, and the warnings are kept: every warning is in both
    lists of the final report. *)
Theorem strict_mode_duplicates_warnings (raw : text) (target : option text)
    (lg : Logger) :
  exists base final,
    validate T JavaTestValidator_init raw target = Ok base
    /\ (validate_java_test T raw target true lg).1 = Ok final
    /\ (warnings base <> [] ->
        errors final = errors base ++ warnings base
        /\ warnings final = warnings base
        /\ forall w, w ∈ warnings base -> w ∈ errors final /\ w ∈ warnings final).
Proof.
  destruct (validate_total T JavaTestValidator_init raw target) as [base Hbase].
  exists base, (escalate true base).
  rewrite (validate_java_test_eq T _ _ _ _ _ Hbase). cbn [fst].
  split; [done|]. split; [done|]. intros Hw. rewrite escalate_strict by done.
  cbn [errors warnings]. split; [done|]. split; [done|].
  intros w Hin. split; [|done]. apply elem_of_app. by right.
Qed.

(** C2 (as amended).  For the input of scenario 1, the extracted code is
    the class of the fenced block and no danger pattern matches it; the
    code has no JUnit 5 import, so the report has valid=false, the single
    error of the missing import, and no warning. *)
Theorem scenario1_report :
  _extract_java_code T JavaTestValidator_init scenario1 = Ok scenario1_code
  /\ _check_safety T JavaTestValidator_init scenario1_code = (true, [])
  /\ validate T JavaTestValidator_init scenario1 None
     = Ok {| valid := false; clean_code := scenario1_code;
             errors := [py "缺少 JUnit 5 相关导入（应包含 @Test）"];
             warnings := []; suggestions := [] |}.
Proof. split; [|split]; vm_compute; reflexivity. Qed.

Lemma after_app b u v : after b (u ++ v) = after (after b u) v.
Proof.
  unfold after. rewrite last_app. destruct (last v); [done|]. done.
Qed.

Lemma search_exec_in_call a b :
  is_Some (search T NOFLAGS pat_exec (a ++ rm_rf_call ++ b)).
Proof.
  change rm_rf_call
    with (py "Runtime.getRuntime()."
          ++ (py "exec(" ++ [DQ] ++ py "rm -rf /" ++ [DQ] ++ py ")")).
  rewrite <- (app_assoc (py "Runtime.getRuntime().")), app_assoc.
  unfold search.
  edestruct (search_from_found T NOFLAGS pat_exec (a ++ py "Runtime.getRuntime().")
               ((py "exec(" ++ [DQ] ++ py "rm -rf /" ++ [DQ] ++ py ")") ++ b)
               0%nat None) as [mt ->]; [|done].
  rewrite after_app. vm_compute. reflexivity.
Qed.

Lemma search_runtime_in_call a b :
  word_opt T (last a) = false ->
  is_Some (search T NOFLAGS pat_runtime (a ++ rm_rf_call ++ b)).
Proof.
  intros Hb. unfold search.
  edestruct (search_from_found T NOFLAGS pat_runtime a (rm_rf_call ++ b)
               0%nat None) as [mt ->]; [|done].
  assert (Ha : after None a = last a) by (unfold after; by destruct (last a)).
  rewrite Ha. unfold pat_runtime, Cat. cbn [foldr]. rewrite m_Seq.
  cbn [m]. unfold at_boundary. cbn [before rest]. rewrite Hb.
  vm_compute. reflexivity.
Qed.

(** C3 (as amended).  For every input whose extracted code contains
    [Runtime.getRuntime().exec("rm -rf /")], the safety check fails, and
    the structure checks do not run: the report has valid=false, no
    warning, no suggestion, and the triggered reasons as its errors.  The
    reason of the [exec(] pattern is among them, and the reason of the
    Runtime pattern precedes it whenever the call does not directly
    follow a word character: the call triggers two reasons, not one. *)
Theorem runtime_exec_call_rejected (raw : text) (target : option text)
    (code a b : text) :
  _extract_java_code T JavaTestValidator_init raw = Ok code ->
  code = a ++ rm_rf_call ++ b ->
  exists reasons,
    _check_safety T JavaTestValidator_init code = (false, reasons)
    /\ validate T JavaTestValidator_init raw target
       = Ok {| valid := false; clean_code := code; errors := reasons;
               warnings := []; suggestions := [] |}
    /\ py "禁止调用 exec()" ∈ reasons
    /\ (word_opt T (last a) = false ->
        exists others,
          reasons = py "禁止使用 Runtime 执行系统命令" :: py "禁止调用 exec()" :: others).
Proof.
  intros Hcode ->. exists (triggered T JavaTestValidator_init (a ++ rm_rf_call ++ b)).
  assert (Hexec : py "禁止调用 exec()"
                  ∈ triggered T JavaTestValidator_init (a ++ rm_rf_call ++ b)).
  { unfold triggered. apply list_elem_of_fmap.
    exists (pat_exec, py "禁止调用 exec()"). split; [done|].
    apply list_elem_of_filter. split; [apply search_exec_in_call|].
    cbn [dangerous_patterns JavaTestValidator_init]. right. left. }
  assert (Hne : triggered T JavaTestValidator_init (a ++ rm_rf_call ++ b) <> []).
  { intros E. rewrite E in Hexec. by apply not_elem_of_nil in Hexec. }
  split; [|split; [|split]].
  - pose proof (check_safety_issues T JavaTestValidator_init
                  (a ++ rm_rf_call ++ b)) as Hi.
    pose proof (check_safety_flag T JavaTestValidator_init
                  (a ++ rm_rf_call ++ b)) as Hf.
    destruct (_check_safety T JavaTestValidator_init (a ++ rm_rf_call ++ b))
      as [safe issues]. cbn [fst snd] in *. subst issues.
    destruct safe; [exfalso; by apply Hne, Hf|done].
  - apply validate_unsafe; [done| |done].
    intros E. rewrite E in Hne. by rewrite triggered_empty in Hne.
  - done.
  - intros Hb. eexists. unfold triggered.
    cbn [dangerous_patterns JavaTestValidator_init].
    rewrite filter_cons, decide_True by (by apply search_runtime_in_call).
    rewrite filter_cons, decide_True by apply search_exec_in_call.
    reflexivity.
Qed.

End ValidatorClaims.

(** C8, as stated, fails: the first fence of this text opens a block
    tagged "python", and the extractor returns its interior, tag
    included, and not the interior of the Java block. *)
Lemma extract_first_fence_any_tag :
  _extract_java_code ascii_only JavaTestValidator_init two_blocks
  = Ok (py "python
x").
Proof. vm_compute. reflexivity. Qed.

Lemma extract_java_code_spec_witness :
  _extract_java_code ascii_only JavaTestValidator_init scenario1
  = Ok scenario1_code
  /\ _extract_java_code ascii_only JavaTestValidator_init (py "import foo")
     = Ok (py "import foo").
Proof.
  split.
  - apply (proj1 (extract_java_code_spec ascii_only JavaTestValidator_init scenario1)
             (py "Here is the test:
") (py "java") ([NL] ++ scenario1_code ++ [NL]) []).
    + reflexivity.
    + reflexivity.
    + left. reflexivity.
    + reflexivity.
  - apply (proj1 (proj2 (extract_java_code_spec ascii_only JavaTestValidator_init
                           (py "import foo")))).
    apply no_fence_no_block. reflexivity.
Defined.

Lemma validate_unsafe_short_circuit_witness :
  validate ascii_only JavaTestValidator_init scenario2 None
  = Ok {| valid := false; clean_code := rm_rf_call ++ py ";";
          errors := [py "禁止使用 Runtime 执行系统命令"; py "禁止调用 exec()"];
          warnings := []; suggestions := [] |}.
Proof.
  apply (proj1 (validate_unsafe_short_circuit ascii_only scenario2 None
                  (rm_rf_call ++ py ";") eq_refl
                  ltac:(apply Exists_cons_hd; vm_compute; eauto))).
Defined.

(** C2, as stated, fails: the code of scenario 1 imports nothing, and the
    report is invalid with the error of the missing JUnit 5 import. *)
Lemma scenario1_is_invalid :
  valid <$> validate ascii_only JavaTestValidator_init scenario1 None = Ok false
  /\ errors <$> validate ascii_only JavaTestValidator_init scenario1 None
     = Ok [py "缺少 JUnit 5 相关导入（应包含 @Test）"].
Proof. split; vm_compute; reflexivity. Qed.

(** C3, as stated, fails: the call of scenario 2 triggers the reason of
    the Runtime pattern and the reason of the [exec(] pattern. *)
Lemma scenario2_two_reasons :
  _check_safety ascii_only JavaTestValidator_init (rm_rf_call ++ py ";")
  = (false, [py "禁止使用 Runtime 执行系统命令"; py "禁止调用 exec()"])
  /\ errors <$> validate ascii_only JavaTestValidator_init scenario2 None
     = Ok [py "禁止使用 Runtime 执行系统命令"; py "禁止调用 exec()"].
Proof. split; vm_compute; reflexivity. Qed.

Lemma runtime_exec_call_rejected_witness :
  exists reasons,
    _check_safety ascii_only JavaTestValidator_init (rm_rf_call ++ py ";")
    = (false, reasons)
    /\ validate ascii_only JavaTestValidator_init scenario2 None
       = Ok {| valid := false; clean_code := rm_rf_call ++ py ";";
               errors := reasons; warnings := []; suggestions := [] |}
    /\ py "禁止调用 exec()" ∈ reasons
    /\ (word_opt ascii_only (last []) = false ->
        exists others,
          reasons = py "禁止使用 Runtime 执行系统命令" :: py "禁止调用 exec()" :: others).
Proof.
  apply (runtime_exec_call_rejected ascii_only scenario2 None
           (rm_rf_call ++ py ";") [] (py ";")).
  - vm_compute. reflexivity.
  - vm_compute. reflexivity.
Defined.

(** ** The generator *)

Section GeneratorClaims.

Context (T : char -> bool).
Context (module_dir : text).
Context (open_read : text -> result text).
Context (template_render : text -> list (text * pyval) -> result text).
Context (call_llm : text -> text -> result text).

Lemma report_dict_valid r : report_dict r !! py "valid" = Some (VBool (valid r)).
Proof. destruct r. vm_compute. reflexivity. Qed.

Lemma report_dict_issues r : report_dict r !! py "issues" = None.
Proof. destruct r. vm_compute. reflexivity. Qed.

Lemma report_dict_clean_code r :
  report_dict r !! py "clean_code" = Some (VStr (clean_code r)).
Proof. destruct r. vm_compute. reflexivity. Qed.

(** An invalid report makes step 4 fail on the key it reads the issues
    from, before the [ValueError] is built. *)
Lemma checked_code_invalid r :
  valid r = false -> checked_code (report_dict r) = Raise (KeyError (py "issues")).
Proof.
  intros H. unfold checked_code, getitem.
  rewrite report_dict_valid. cbn [mbind result_bind val_truthy]. rewrite H.
  cbn [negb]. by rewrite report_dict_issues.
Qed.

Lemma checked_code_valid r :
  valid r = true -> checked_code (report_dict r) = Ok (VStr (clean_code r)).
Proof.
  intros H. unfold checked_code, getitem.
  rewrite report_dict_valid. cbn [mbind result_bind val_truthy]. rewrite H.
  cbn [negb]. by rewrite report_dict_clean_code.
Qed.

(** C1 (what the code does).  Whenever the model replied and the report
    of [validate_java_test] is invalid, [generate_java_test] raises
    [KeyError('issues')]: the report has no key [issues], so the
    [ValueError] with the joined issue list is never raised.  The agent
    state is left unchanged. *)
Theorem generate_invalid_raises_KeyError (state : AgentState)
    (class_name source_code : text) (method_signature : option text)
    (framework : text) (lg : Logger) (raw : text)
    (report : ValidationReport) (lg' : Logger) :
  llm_reply module_dir open_read template_render call_llm
    state class_name source_code method_signature framework = Ok raw ->
  validate_java_test T raw None true lg = (Ok report, lg') ->
  valid report = false ->
  generate_java_test T module_dir open_read template_render call_llm
    state class_name source_code method_signature framework lg
  = (Raise (KeyError (py "issues")), state, lg').
Proof.
  intros Hraw Hrep Hvalid. unfold generate_java_test.
  rewrite Hraw, Hrep. by rewrite checked_code_invalid.
Qed.

(** On a valid report the generator returns the clean code, the derived
    path and the two advisory dependencies, and records the test in the
    scratchpad. *)
Lemma generate_valid_returns (state : AgentState)
    (class_name source_code : text) (method_signature : option text)
    (framework : text) (lg : Logger) (raw : text)
    (report : ValidationReport) (lg' : Logger) :
  llm_reply module_dir open_read template_render call_llm
    state class_name source_code method_signature framework = Ok raw ->
  validate_java_test T raw None true lg = (Ok report, lg') ->
  valid report = true ->
  exists result_ state',
    generate_java_test T module_dir open_read template_render call_llm
      state class_name source_code method_signature framework lg
    = (Ok result_, state', lg')
    /\ test_class result_ = VStr (clean_code report)
    /\ file_path result_ = py "src/test/java/" ++ class_name ++ py "Test.java"
    /\ scratchpad state' !! py "last_generated_test"
       = Some (VDict [ (py "class_name", VStr class_name);
                       (py "test_code", VStr (clean_code report));
                       (py "file_path", VStr (file_path result_)) ]).
Proof.
  intros Hraw Hrep Hvalid. unfold generate_java_test.
  rewrite Hraw, Hrep, checked_code_valid by done.
  eexists _, _. split; [done|]. cbn [test_class file_path scratchpad].
  split; [done|]. split; [done|]. by rewrite lookup_insert_eq.
Qed.

End GeneratorClaims.

Lemma generate_invalid_raises_KeyError_witness :
  generate_java_test ascii_only [] (fun _ => Ok []) (fun _ _ => Ok [])
    (fun _ _ => Ok refusal)
    {| scratchpad := ∅ |} (py "Foo") (py "class Foo {}") None (py "junit5")
    {| debug_enabled := false; debug_records := [] |}
  = (Raise (KeyError (py "issues")), {| scratchpad := ∅ |},
     {| debug_enabled := false; debug_records := [] |}).
Proof.
  apply (generate_invalid_raises_KeyError ascii_only [] (fun _ => Ok [])
           (fun _ _ => Ok []) (fun _ _ => Ok refusal)
           {| scratchpad := ∅ |} (py "Foo") (py "class Foo {}") None (py "junit5")
           {| debug_enabled := false; debug_records := [] |} refusal
           {| valid := false; clean_code := [];
              errors := [py "未找到有效的 ```java 代码块"];
              warnings := []; suggestions := [] |}).
  - reflexivity.
  - vm_compute. reflexivity.
  - reflexivity.
Defined.

(** * Further properties of the validator *)

Module StructureFacts.

Section Closed.

Context (T : char -> bool).

Lemma class_name_search code :
  class_name T code = None <-> search T NOFLAGS pat_public_class code = None.
Proof.
  unfold class_name. destruct (search T NOFLAGS pat_public_class code) as [mt|] eqn:E.
  - destruct (search_public_class_group T _ _ E) as [name Hn].
    cbn [mbind option_bind]. by rewrite Hn.
  - done.
Qed.

(** [_check_structure] returns the three lists of its checks. *)
Lemma check_structure_closed self code target :
  _check_structure T self code target
  = Ok {| i_errors := structure_errors T code;
          i_warnings := structure_warnings T code;
          i_suggestions := structure_suggestions T code target |}.
Proof.
  unfold _check_structure, structure_errors, structure_warnings,
    structure_suggestions, class_name, has_junit_import, has_test_marker,
    has_main, mock_without_import.
  set (m1 := py "缺少 JUnit 5 相关导入（应包含 @Test）").
  set (m2 := py "未找到 public class 定义").
  set (m3 := py "未找到任何 @Test 注解的方法").
  set (m4 := py "测试类中不应包含 main 方法").
  set (m5 := py "检测到 Mockito 用法但缺少相关导入").
  set (w1 := py "测试类名 '"). set (w2 := py "' 应以 'Test' 结尾").
  set (s1 := py "建议测试类命名为 '"). set (s2 := py "Test' 以匹配被测类").
  generalize (existsb (fun imp => contains imp code)
      [ py "import org.junit.jupiter.api.Test;";
        py "import static org.junit.jupiter.api.Assertions.*;" ]) as b1.
  generalize (length (findall T NOFLAGS pat_test_marker code) =? 0)%nat as b2.
  generalize (contains (py "public static void main") code) as b3.
  generalize (contains (py "mock(") code || contains (py "when(") code
              || contains (py "verify(") code) as b4.
  generalize (contains (py "import org.mockito") code) as b5.
  clearbody m1 m2 m3 m4 m5 w1 w2 s1 s2. intros b1 b2 b3 b4 b5.
  destruct (search T NOFLAGS pat_public_class code) as [mt|] eqn:E.
  - destruct (search_public_class_group T _ _ E) as [name Hn].
    unfold group_1_str. cbn [mbind result_bind option_bind]. rewrite !Hn.
    cbn [mbind result_bind option_bind].
    generalize (endswith (py "Test") name) as b6. intros b6.
    destruct b1, b2, b3, b4, b5, b6, target as [t|];
      try destruct (truthy t && negb (startswith t name)); reflexivity.
  - cbn [mbind result_bind option_bind].
    destruct b1, b2, b3, b4, b5, target as [t|]; reflexivity.
Qed.

(** [validate] extracts the code and returns the report for it. *)
Lemma validate_closed self raw target :
  exists code,
    _extract_java_code T self raw = Ok code
    /\ validate T self raw target = Ok (report_for T self code target).
Proof.
  destruct (validate_exits T self raw target) as (code & r & Hc & Hr & Hexit).
  exists code. split; [done|]. rewrite Hr. f_equal.
  destruct Hexit as [|code Hne Ht|code issues Hne Ht Hi].
  - done.
  - destruct code as [|c code]; [done|]. cbn [report_for].
    by destruct (triggered T self (c :: code)).
  - destruct code as [|c code]; [done|]. cbn [report_for]. rewrite Ht.
    rewrite check_structure_closed in Hi. by injection Hi as <-.
Qed.

End Closed.

End StructureFacts.
Import StructureFacts.

(** * Patterns and the texts they match *)

Module PatternFacts.

Section Patterns.

Context (T : char -> bool).

Lemma after_None a : after None a = last a.
Proof. unfold after. by destruct (last a). Qed.

Lemma lit_prefix_NOFLAGS w s : lit_prefix NOFLAGS w s = startswith w s.
Proof.
  revert s; induction w as [|a w IH]; intros [|c s]; simpl; try done.
  by rewrite IH.
Qed.

Lemma contains_split w s : contains w s = true -> exists a b, s = a ++ w ++ b.
Proof.
  induction s as [|c s IH]; cbn [contains].
  - rewrite orb_false_r. intros H%startswith_true. by exists [], (drop (length w) []).
  - intros [H|H]%orb_true_iff.
    + apply startswith_true in H. by exists [], (drop (length w) (c :: s)).
    + destruct (IH H) as (a & b & ->). by exists (c :: a), b.
Qed.

Lemma contains_iff w s : contains w s = true <-> exists a b, s = a ++ w ++ b.
Proof.
  split; [apply contains_split|]. intros (a & b & ->). apply contains_app.
Qed.

(** The scan succeeds exactly at a place where the pattern matches, with
    the character in front of that place before the cursor. *)
Lemma search_from_some_at fl r pos b s mt :
  search_from T fl r pos b s = Some mt ->
  exists u1 u2 st',
    s = u1 ++ u2 /\
    m T fl r {| before := after b u1; rest := u2; group1 := None |} Some = Some st' /\
    m_group1 mt = group1 st'.
Proof.
  revert pos b; induction s as [|c s IH]; intros pos b; simpl.
  - destruct (m T fl r _ Some) as [st'|] eqn:E; [|done].
    intros [= <-]. by exists [], [], st'.
  - destruct (m T fl r _ Some) as [st'|] eqn:E.
    + intros [= <-]. by exists [], (c :: s), st'.
    + intros H. destruct (IH _ _ H) as (u1 & u2 & st' & -> & H1 & H2).
      exists (c :: u1), u2, st'. by rewrite after_cons.
Qed.

Lemma search_iff fl r s :
  is_Some (search T fl r s)
  <-> exists a u,
        s = a ++ u
        /\ is_Some (m T fl r {| before := last a; rest := u; group1 := None |} Some).
Proof.
  split.
  - intros [mt H]. apply search_from_some_at in H as (a & u & st' & -> & H & _).
    exists a, u. rewrite <- after_None, H. eauto.
  - intros (a & u & -> & [st' H]). rewrite <- after_None in H.
    destruct (search_from_found T fl r a u 0%nat None st' H) as [mt Hmt].
    unfold search. rewrite Hmt. eauto.
Qed.

(** A literal pattern is found exactly in the texts that contain it. *)
Lemma search_Str_iff w s :
  is_Some (search T NOFLAGS (Str w) s) <-> contains w s = true.
Proof.
  rewrite search_iff, contains_iff. split.
  - intros (a & u & -> & [st' H]). rewrite m_Str, lit_prefix_NOFLAGS in H.
    cbn [rest] in H. destruct (startswith w u) eqn:E; [|done].
    apply startswith_true in E. exists a, (drop (length w) u). by rewrite <- E.
  - intros (a & b & ->). exists a, (w ++ b). split; [done|].
    rewrite m_Str, lit_prefix_NOFLAGS. cbn [rest]. rewrite startswith_app. eauto.
Qed.

Lemma m_Bound fl st k :
  m T fl Bound st k = if at_boundary T st then k st else None.
Proof. done. Qed.

(** [\b] in front of a literal that begins with a word character: the
    literal is found where no word character precedes it. *)
Lemma search_bound_Str_iff c w s :
  isword T c = true ->
  is_Some (search T NOFLAGS (Cat [Bound; Str (c :: w)]) s)
  <-> exists a b, s = a ++ (c :: w) ++ b /\ word_opt T (last a) = false.
Proof.
  intros Hc. rewrite search_iff. unfold Cat. cbn [foldr]. split.
  - intros (a & u & -> & [st' H]). rewrite m_Seq, m_Bound in H.
    unfold at_boundary in H. cbn [before rest] in H.
    destruct (xorb _ _) eqn:Hx; [|done].
    rewrite m_Seq, m_Str, lit_prefix_NOFLAGS in H. cbn [rest] in H.
    destruct (startswith (c :: w) u) eqn:E; [|done].
    apply startswith_true in E. exists a, (drop (length (c :: w)) u).
    split; [by rewrite <- E|]. rewrite E in Hx. cbn [app head word_opt] in Hx.
    rewrite Hc in Hx. by destruct (word_opt T (last a)).
  - intros (a & b & -> & Ha). exists a, ((c :: w) ++ b). split; [done|].
    rewrite m_Seq, m_Bound. unfold at_boundary.
    cbn [before rest app head word_opt]. rewrite Ha, Hc. cbn [xorb].
    rewrite m_Seq, m_Str, lit_prefix_NOFLAGS. cbn [rest].
    pose proof (startswith_app (c :: w) b) as Hs. cbn [app] in Hs.
    rewrite Hs. cbn [m]. eauto.
Qed.

(** A literal that ends with a word character in front of [\b]: the
    literal is found where no word character follows it. *)
Lemma search_Str_bound_iff w c s :
  isword T c = true ->
  is_Some (search T NOFLAGS (Cat [Str (w ++ [c]); Bound]) s)
  <-> exists a b, s = a ++ (w ++ [c]) ++ b /\ word_opt T (head b) = false.
Proof.
  intros Hc. rewrite search_iff. unfold Cat. cbn [foldr].
  assert (Hafter : forall o, after o (w ++ [c]) = Some c).
  { intros o. unfold after. by rewrite last_snoc. }
  split.
  - intros (a & u & -> & [st' H]). rewrite m_Seq, m_Str, lit_prefix_NOFLAGS in H.
    cbn [rest] in H. destruct (startswith (w ++ [c]) u) eqn:E; [|done].
    apply startswith_true in E. exists a, (drop (length (w ++ [c])) u).
    split; [by rewrite <- E|].
    erewrite skip_eq in H by exact E. rewrite m_Seq, m_Bound in H.
    unfold at_boundary in H. cbn [before rest] in H. rewrite Hafter in H.
    cbn [word_opt] in H. rewrite Hc in H. by destruct (word_opt T (head _)).
  - intros (a & b & -> & Hb). exists a, ((w ++ [c]) ++ b). split; [done|].
    rewrite m_Seq, m_Str, lit_prefix_NOFLAGS. cbn [rest]. rewrite startswith_app.
    erewrite skip_eq by done. rewrite m_Seq, m_Bound. unfold at_boundary.
    cbn [before rest]. rewrite Hafter. cbn [word_opt]. rewrite Hc, Hb.
    cbn [xorb m]. eauto.
Qed.

End Patterns.

End PatternFacts.
Import PatternFacts.

(** * Stripped texts, captured names, triggered reasons *)

Module MoreFacts.

Lemma lstrip_snoc l c :
  lstrip (l ++ [c])
  = match lstrip l with
    | [] => if isspace c then [] else [c]
    | _ => lstrip l ++ [c]
    end.
Proof.
  induction l as [|x l IH]; simpl; [done|]. by destruct (isspace x).
Qed.

Lemma rstrip_cons c s :
  rstrip (c :: s)
  = match rstrip s with
    | [] => if isspace c then [] else [c]
    | _ => c :: rstrip s
    end.
Proof.
  unfold rstrip. cbn [rev]. rewrite lstrip_snoc.
  destruct (lstrip (rev s)) as [|x l] eqn:E.
  - by destruct (isspace c).
  - rewrite rev_app_distr. cbn [rev app].
    destruct (rev l ++ [x]) eqn:E'; [by destruct (rev l)|done].
Qed.

Lemma rstrip_idemp s : rstrip (rstrip s) = rstrip s.
Proof. unfold rstrip. by rewrite rev_involutive, lstrip_idemp. Qed.

Lemma lstrip_rstrip_lstrip s : lstrip (rstrip (lstrip s)) = rstrip (lstrip s).
Proof.
  destruct (lstrip s) as [|c x] eqn:E; [done|]. apply lstrip_head in E.
  rewrite rstrip_cons. destruct (rstrip x); rewrite ?E; simpl; by rewrite ?E.
Qed.

(** Stripping a stripped text changes nothing. *)
Lemma strip_idemp s : strip (strip s) = strip s.
Proof. unfold strip. by rewrite lstrip_rstrip_lstrip, rstrip_idemp. Qed.

Lemma lstrip_all_space s : forallb isspace s = true -> lstrip s = [].
Proof.
  induction s as [|c s IH]; simpl; [done|].
  intros [-> H]%andb_true_iff. by apply IH.
Qed.

(** A pattern without a newline starts a text when it starts its first
    line. *)
Lemma startswith_first_line p s :
  forallb (fun a => negb (a =? NL)) p = true ->
  startswith p (first_line s) = startswith p s.
Proof.
  revert s; induction p as [|a p IH]; intros [|c s]; simpl; try done.
  intros [Ha Hp]%andb_true_iff. destruct (N.eqb_spec c NL) as [->|Hc]; simpl.
  - apply negb_true_iff in Ha. by rewrite Ha.
  - by rewrite IH.
Qed.

Section Captures.

Context (T : char -> bool) (fl : flags).



End Captures.

Section Reasons.

Context (T : char -> bool).

(** The reasons of the four patterns of the class, one by one. *)
Lemma triggered_init code :
  triggered T JavaTestValidator_init code
  = (if bool_decide (is_Some (search T NOFLAGS pat_runtime code))
     then [py "禁止使用 Runtime 执行系统命令"] else [])
    ++ (if bool_decide (is_Some (search T NOFLAGS pat_exec code))
        then [py "禁止调用 exec()"] else [])
    ++ (if bool_decide (is_Some (search T NOFLAGS pat_process code))
        then [py "禁止创建进程"] else [])
    ++ (if bool_decide (is_Some (search T NOFLAGS pat_exit code))
        then [py "禁止调用 System.exit()"] else []).
Proof.
  unfold triggered. cbn [dangerous_patterns JavaTestValidator_init].
  set (m1 := py "禁止使用 Runtime 执行系统命令"). set (m2 := py "禁止调用 exec()").
  set (m3 := py "禁止创建进程"). set (m4 := py "禁止调用 System.exit()").
  clearbody m1 m2 m3 m4.
  rewrite !filter_cons, filter_nil. cbn [fst]. unfold bool_decide, decide.
  destruct (is_Some_dec (search T NOFLAGS pat_runtime code)).
  all: destruct (is_Some_dec (search T NOFLAGS pat_exec code)).
  all: destruct (is_Some_dec (search T NOFLAGS pat_process code)).
  all: destruct (is_Some_dec (search T NOFLAGS pat_exit code)).
  all: reflexivity.
Qed.

End Reasons.

End MoreFacts.
Import MoreFacts.

(** * Further properties, function by function *)

Section MoreValidator.

Context (T : char -> bool).

Lemma structure_errors_nil code :
  structure_errors T code = []
  <-> has_junit_import code = true /\ is_Some (class_name T code)
      /\ has_test_marker T code = true.
Proof.
  unfold structure_errors.
  destruct (has_junit_import code), (class_name T code), (has_test_marker T code);
    cbn; split; try done; try (intros (? & ? & ?); done);
    try (intros (? & [? ?] & ?); done).
Qed.

Lemma structure_warnings_nil code :
  structure_warnings T code = []
  <-> (forall name, class_name T code = Some name -> endswith (py "Test") name = true)
      /\ has_main code = false /\ mock_without_import code = false.
Proof.
  unfold structure_warnings.
  destruct (class_name T code) as [name|]; [destruct (endswith (py "Test") name) eqn:E|];
    destruct (has_main code), (mock_without_import code); cbn; split;
    try done; try (intros (? & ? & ?); done).
  - intros _. split; [|done]. by intros ? [= <-].
  - intros (H & _). specialize (H _ eq_refl). congruence.
Qed.

(** X1.  [validate] accepts a reply exactly when some code was
    extracted, no danger pattern of the validator matches it, it has one
    of the two JUnit 5 import lines, the class-name pattern is found and
    a test marker is found. *)
Theorem validate_valid_iff (self : JavaTestValidator) (raw : text)
    (target : option text) :
  exists code r,
    _extract_java_code T self raw = Ok code
    /\ validate T self raw target = Ok r
    /\ (valid r = true
        <-> code <> [] /\ triggered T self code = []
            /\ has_junit_import code = true
            /\ is_Some (search T NOFLAGS pat_public_class code)
            /\ length (findall T NOFLAGS pat_test_marker code) <> 0%nat).
Proof.
  destruct (validate_closed T self raw target) as (code & Hc & Hv).
  exists code, (report_for T self code target). split; [done|]. split; [done|].
  assert (Hcls : is_Some (search T NOFLAGS pat_public_class code)
                 <-> is_Some (class_name T code)).
  { rewrite <- !not_eq_None_Some. by rewrite class_name_search. }
  assert (Hmark : length (findall T NOFLAGS pat_test_marker code) <> 0%nat
                  <-> has_test_marker T code = true).
  { unfold has_test_marker. rewrite negb_true_iff, Nat.eqb_neq. done. }
  rewrite Hcls, Hmark. destruct code as [|c code]; cbn [report_for].
  - cbn [valid]. split; [done|]. by intros [? _].
  - destruct (triggered T self (c :: code)) as [|reason reasons]; cbn [valid].
    + rewrite Nat.eqb_eq, length_zero_iff_nil, structure_errors_nil.
      split; [by intros (? & ? & ?)|by intros (_ & _ & ? & ? & ?)].
    + split; [done|]. by intros (_ & ? & _).
Qed.

Lemma escalate_valid strict r :
  valid (escalate strict r) = true
  <-> valid r = true /\ (strict = true -> warnings r = []).
Proof.
  unfold escalate. destruct strict; cbn [andb].
  - destruct (warnings r) as [|w ws]; cbn [length Nat.eqb negb valid].
    + split; [by intros ->|by intros [-> _]].
    + split; [done|]. intros [_ H]. by specialize (H eq_refl).
  - split; [by intros ->|by intros [-> _]].
Qed.

(** X2.  In strict mode [validate_java_test] accepts a reply exactly when
    [validate] accepts it and no warning applies: the captured class name
    ends with "Test", the code has no [public static void main], and it
    does not use mock(, when( or verify( without importing org.mockito. *)
Theorem strict_valid_iff (raw : text) (target : option text) (lg : Logger) :
  exists code final,
    _extract_java_code T JavaTestValidator_init raw = Ok code
    /\ (validate_java_test T raw target true lg).1 = Ok final
    /\ (valid final = true
        <-> code <> [] /\ triggered T JavaTestValidator_init code = []
            /\ has_junit_import code = true
            /\ (exists name, class_name T code = Some name
                             /\ endswith (py "Test") name = true)
            /\ has_test_marker T code = true
            /\ has_main code = false
            /\ mock_without_import code = false).
Proof.
  destruct (validate_closed T JavaTestValidator_init raw target)
    as (code & Hc & Hv).
  exists code, (escalate true (report_for T JavaTestValidator_init code target)).
  split; [done|]. rewrite (validate_java_test_eq T _ _ _ _ _ Hv). cbn [fst].
  split; [done|]. rewrite escalate_valid.
  destruct code as [|c code]; cbn [report_for].
  - cbn [valid]. split; [by intros [? _]|by intros [? _]].
  - destruct (triggered T JavaTestValidator_init (c :: code)) as [|reason reasons];
      cbn [valid warnings].
    + rewrite Nat.eqb_eq, length_zero_iff_nil, structure_errors_nil. split.
      * intros ((Hi & [name Hn] & Hm) & Hw).
        apply (fun H => proj1 (structure_warnings_nil _) (H eq_refl)) in Hw
          as (Hname & Hmain & Hmock).
        repeat (split; [done|]). split; [by eauto|done].
      * intros (_ & _ & Hi & (name & Hn & He) & Hm & Hmain & Hmock).
        split; [by rewrite Hn|]. intros _. apply structure_warnings_nil.
        split; [|done]. intros name' Hn'. congruence.
    + split; [by intros [? _]|by intros (_ & ? & _)].
Qed.

(** X3.  Whatever the strict setting, the report [validate_java_test]
    returns is valid exactly when its errors list is empty: the
    escalation keeps the invariant of [validate].  It changes the valid
    flag and the errors only. *)
Theorem validate_java_test_invariant (raw : text) (target : option text)
    (strict : bool) (lg : Logger) :
  exists base final,
    validate T JavaTestValidator_init raw target = Ok base
    /\ (validate_java_test T raw target strict lg).1 = Ok final
    /\ (valid final = true <-> errors final = [])
    /\ clean_code final = clean_code base
    /\ warnings final = warnings base
    /\ suggestions final = suggestions base.
Proof.
  destruct (validate_exits T JavaTestValidator_init raw target)
    as (code & base & _ & Hbase & Hvalid%validate_exit_valid).
  exists base, (escalate strict base).
  rewrite (validate_java_test_eq T _ _ _ _ _ Hbase). cbn [fst].
  split; [done|]. split; [done|]. unfold escalate.
  destruct strict, (warnings base) as [|w ws] eqn:Hw;
    cbn [andb negb length Nat.eqb valid errors clean_code warnings suggestions].
  - rewrite Hvalid, Nat.eqb_eq, length_zero_iff_nil. done.
  - split; [|done]. split; [done|]. intros H. by apply app_eq_nil in H as [_ ?].
  - rewrite Hvalid, Nat.eqb_eq, length_zero_iff_nil. done.
  - rewrite Hvalid, Nat.eqb_eq, length_zero_iff_nil. done.
Qed.

(** X4.  The target class name bears on the suggestions only: for two
    target names [validate] returns reports with the same valid flag,
    clean code, errors and warnings.  An empty target name gives the
    report of no target name. *)
Theorem validate_target_only_suggestions (self : JavaTestValidator)
    (raw : text) (target1 target2 : option text) :
  (exists r1 r2,
     validate T self raw target1 = Ok r1
     /\ validate T self raw target2 = Ok r2
     /\ valid r1 = valid r2 /\ clean_code r1 = clean_code r2
     /\ errors r1 = errors r2 /\ warnings r1 = warnings r2)
  /\ validate T self raw (Some []) = validate T self raw None.
Proof.
  destruct (validate_closed T self raw target1) as (code & Hc & Hv1).
  assert (Hall : forall target,
             validate T self raw target = Ok (report_for T self code target)).
  { intros target. destruct (validate_closed T self raw target) as (code' & Hc' & ->).
    rewrite Hc in Hc'. by injection Hc' as <-. }
  split.
  - exists (report_for T self code target1), (report_for T self code target2).
    rewrite !Hall. split; [done|]. split; [done|].
    destruct code as [|c code]; [by cbn|]. cbn [report_for].
    destruct (triggered T self (c :: code));
      cbn [valid clean_code errors warnings]; repeat split.
  - (* an empty target name is not truthy: the two reports coincide *)
    rewrite !Hall. reflexivity.
Qed.

(** X5.  The error of the missing test method is in the errors of
    [_check_structure] exactly when the code has no "@Test" that the end
    of the code or a non-word character follows: "@Tests" or
    "@TestFactory" alone do not count as a test marker. *)
Theorem no_test_marker_error_iff (self : JavaTestValidator) (code : text)
    (target : option text) :
  exists issues,
    _check_structure T self code target = Ok issues
    /\ (py "未找到任何 @Test 注解的方法" ∈ i_errors issues
        <-> ~ exists a b, code = a ++ py "@Test" ++ b
                          /\ word_opt T (head b) = false).
Proof.
  eexists. split; [apply check_structure_closed|]. cbn [i_errors].
  change (py "@Test") with (py "@Tes" ++ [116]).
  rewrite <- (search_Str_bound_iff T (py "@Tes") 116 code eq_refl).
  change (Cat [Str (py "@Tes" ++ [116]); Bound]) with pat_test_marker.
  rewrite <- not_eq_None_Some, <- (findall_nil T NOFLAGS).
  unfold structure_errors, has_test_marker.
  rewrite !elem_of_app.
  destruct (findall T NOFLAGS pat_test_marker code) as [|x xs] eqn:E;
    cbn [length Nat.eqb negb].
  - split; [by intros _ H|]. intros _. right. right. left.
  - split; [|intros H; by destruct H]. intros [H|[H|H]].
    + destruct (has_junit_import code); [by apply not_elem_of_nil in H|].
      apply list_elem_of_singleton in H. by vm_compute in H.
    + destruct (class_name T code); [by apply not_elem_of_nil in H|].
      apply list_elem_of_singleton in H. by vm_compute in H.
    + by apply not_elem_of_nil in H.
Qed.

(** X6.  The code the extractor returns, and [validate] reports as
    [clean_code], has no leading and no trailing whitespace. *)
Theorem clean_code_is_stripped (self : JavaTestValidator) (raw : text)
    (target : option text) :
  exists code r,
    _extract_java_code T self raw = Ok code
    /\ validate T self raw target = Ok r
    /\ strip code = code
    /\ strip (clean_code r) = clean_code r.
Proof.
  destruct (validate_closed T self raw target) as (code & Hc & Hv).
  exists code, (report_for T self code target). split; [done|]. split; [done|].
  assert (Hs : strip code = code).
  { unfold _extract_java_code in Hc.
    destruct (search T code_block_flags pat_code_block raw) as [mt|].
    - destruct (group_1_str mt) as [g|]; [|done]. injection Hc as <-.
      apply strip_idemp.
    - destruct (split NL (strip raw)) as [|line0 ls]; [by injection Hc as <-|].
      destruct (_ || _); injection Hc as <-; [apply strip_idemp|done]. }
  split; [done|]. destruct code as [|c code]; [done|]. cbn [report_for].
  by destruct (triggered T self (c :: code)).
Qed.

(** X7.  A reply without a triple backtick whose trimmed text begins
    neither with "public class" nor with "import" (an empty or blank
    reply, for one) gives the report of the missing code block, with
    this single error and an empty [clean_code]. *)
Theorem plain_reply_has_no_code (self : JavaTestValidator) (raw : text)
    (target : option text) :
  contains FENCE raw = false ->
  startswith (py "public class") (strip raw) = false ->
  startswith (py "import") (strip raw) = false ->
  validate T self raw target
  = Ok {| valid := false; clean_code := [];
          errors := [py "未找到有效的 ```java 代码块"];
          warnings := []; suggestions := [] |}.
Proof.
  intros Hfence Hclass Himport. apply validate_no_code.
  rewrite extract_fallback by (by apply no_fence_no_block).
  unfold begins_like_code. rewrite !startswith_first_line by done.
  by rewrite Hclass, Himport.
Qed.

Lemma m_Alt fl r1 r2 st k :
  m T fl (Alt r1 r2) st k
  = match m T fl r1 st k with Some x => Some x | None => m T fl r2 st k end.
Proof. done. Qed.

Lemma rest_skip n st : rest (skip n st) = drop n (rest st).
Proof.
  revert st; induction n as [|n IH]; intros st; simpl; [done|].
  destruct (rest st) as [|c t] eqn:E; simpl; [by rewrite E|by rewrite IH].
Qed.

Lemma startswith_app_iff p q s :
  startswith (p ++ q) s = startswith p s && startswith q (drop (length p) s).
Proof.
  revert s; induction p as [|a p IH]; intros s; simpl; [done|].
  destruct s as [|c s]; [done|]. simpl. by rewrite IH, andb_assoc.
Qed.

(** Where the Runtime pattern matches: at a word boundary, in front of
    one of its two alternatives and of [.getRuntime()]. *)
Lemma m_runtime_iff st :
  is_Some (m T NOFLAGS pat_runtime st Some)
  <-> at_boundary T st = true
      /\ (startswith (py "Runtime" ++ py ".getRuntime()") (rest st) = true
          \/ startswith (py "ProcessBuilder" ++ py ".getRuntime()") (rest st) = true).
Proof.
  assert (Htail : forall n,
            m T NOFLAGS (Seq (Str (py ".getRuntime()")) Eps)
              (capture st (skip n st)) Some
            = if startswith (py ".getRuntime()") (drop n (rest st))
              then Some (skip (length (py ".getRuntime()")) (capture st (skip n st)))
              else None).
  { intros n. rewrite m_Seq, m_Str, lit_prefix_NOFLAGS. cbn [capture rest].
    by rewrite rest_skip. }
  unfold pat_runtime, Cat. cbn [foldr]. rewrite m_Seq, m_Bound.
  destruct (at_boundary T st); [|split; [by intros [? ?]|by intros [? _]]].
  rewrite m_Seq, m_Group, m_Alt, !m_Str, !lit_prefix_NOFLAGS, !startswith_app_iff.
  destruct (startswith (py "Runtime") (rest st));
    destruct (startswith (py "ProcessBuilder") (rest st));
    rewrite ?Htail, ?andb_true_l, ?andb_false_l;
    destruct (startswith (py ".getRuntime()") (drop (length (py "Runtime")) (rest st)));
    destruct (startswith (py ".getRuntime()")
                (drop (length (py "ProcessBuilder")) (rest st)));
    split; try (intros [? ?]; done); try (intros [_ [?|?]]; done);
    try (intros _; split; [done|]; auto); try (intros _; eauto).
Qed.

Lemma elem_of_reasons (S1 S2 S3 S4 : Prop)
    `{!Decision S1, !Decision S2, !Decision S3, !Decision S4}
    (m1 m2 m3 m4 msg : text) :
  msg ∈ (if bool_decide S1 then [m1] else [])
        ++ (if bool_decide S2 then [m2] else [])
        ++ (if bool_decide S3 then [m3] else [])
        ++ (if bool_decide S4 then [m4] else [])
  <-> (msg = m1 /\ S1) \/ (msg = m2 /\ S2) \/ (msg = m3 /\ S3) \/ (msg = m4 /\ S4).
Proof.
  rewrite !elem_of_app.
  repeat case_bool_decide;
    rewrite ?list_elem_of_singleton, ?elem_of_nil; tauto.
Qed.

Lemma triggered_elem code msg :
  msg ∈ triggered T JavaTestValidator_init code
  <-> (msg = py "禁止使用 Runtime 执行系统命令"
       /\ is_Some (search T NOFLAGS pat_runtime code))
      \/ (msg = py "禁止调用 exec()" /\ is_Some (search T NOFLAGS pat_exec code))
      \/ (msg = py "禁止创建进程" /\ is_Some (search T NOFLAGS pat_process code))
      \/ (msg = py "禁止调用 System.exit()"
          /\ is_Some (search T NOFLAGS pat_exit code)).
Proof. rewrite triggered_init. apply elem_of_reasons. Qed.

(** X8.  The reasons of the two literal danger patterns are reported
    exactly for the codes that contain the literal: "System.exit" for the
    forced-exit reason, "new ProcessBuilder" (with one space) for the
    process-creation reason. *)
Theorem literal_reasons_iff (code : text) :
  (py "禁止调用 System.exit()" ∈ (_check_safety T JavaTestValidator_init code).2
   <-> contains (py "System.exit") code = true)
  /\ (py "禁止创建进程" ∈ (_check_safety T JavaTestValidator_init code).2
      <-> contains (py "new ProcessBuilder") code = true).
Proof.
  rewrite check_safety_issues, !triggered_elem.
  rewrite <- !(search_Str_iff T). fold pat_exit. fold pat_process.
  split; split.
  - intros [[H _]|[[H _]|[[H _]|[_ H]]]];
      [by vm_compute in H|by vm_compute in H|by vm_compute in H|exact H].
  - intros H. by do 3 right.
  - intros [[H _]|[[H _]|[[_ H]|[H _]]]];
      [by vm_compute in H|by vm_compute in H|exact H|by vm_compute in H].
  - intros H. right. right. by left.
Qed.

(** X9.  The reason of the [exec(] pattern is reported exactly when the
    code has an "exec(" that no word character precedes: a method named
    "myexec(" or "_exec(" does not trigger it, ".exec(" does. *)
Theorem exec_reason_iff (code : text) :
  py "禁止调用 exec()" ∈ (_check_safety T JavaTestValidator_init code).2
  <-> exists a b, code = a ++ py "exec(" ++ b /\ word_opt T (last a) = false.
Proof.
  rewrite check_safety_issues, triggered_elem.
  change (py "exec(") with (101 :: py "xec(").
  rewrite <- (search_bound_Str_iff T 101 (py "xec(") code eq_refl).
  change (Cat [Bound; Str (101 :: py "xec(")]) with pat_exec.
  split.
  - intros [[H _]|[[_ H]|[[H _]|[H _]]]];
      [by vm_compute in H|exact H|by vm_compute in H|by vm_compute in H].
  - intros H. right. by left.
Qed.

(** X10.  The reason of the Runtime pattern is reported exactly when the
    code has "Runtime.getRuntime()" or "ProcessBuilder.getRuntime()" that
    no word character precedes. *)
Theorem runtime_reason_iff (code : text) :
  py "禁止使用 Runtime 执行系统命令" ∈ (_check_safety T JavaTestValidator_init code).2
  <-> exists a b,
        (code = a ++ py "Runtime.getRuntime()" ++ b
         \/ code = a ++ py "ProcessBuilder.getRuntime()" ++ b)
        /\ word_opt T (last a) = false.
Proof.
  rewrite check_safety_issues, triggered_elem, search_iff.
  assert (Hb : forall a u,
            (startswith (py "Runtime" ++ py ".getRuntime()") u = true
             \/ startswith (py "ProcessBuilder" ++ py ".getRuntime()") u = true) ->
            at_boundary T {| before := last a; rest := u; group1 := None |}
            = negb (word_opt T (last a))).
  { intros a u Hu. unfold at_boundary. cbn [before rest].
    destruct Hu as [Hu|Hu]; apply startswith_true in Hu; rewrite Hu;
      cbn [app head word_opt];
      [change (isword T 82) with true|change (isword T 80) with true];
      by destruct (word_opt T (last a)). }
  split.
  - intros [[_ (a & u & -> & H)]|[[H _]|[[H _]|[H _]]]];
      [|by vm_compute in H|by vm_compute in H|by vm_compute in H].
    apply m_runtime_iff in H as [Hbnd Hu]. cbn [rest] in Hu.
    rewrite (Hb a u Hu) in Hbnd. apply negb_true_iff in Hbnd.
    destruct Hu as [Hu|Hu]; apply startswith_true in Hu.
    + exists a, (drop (length (py "Runtime" ++ py ".getRuntime()")) u).
      split; [|exact Hbnd]. left.
      change (py "Runtime.getRuntime()") with (py "Runtime" ++ py ".getRuntime()").
      by rewrite <- Hu.
    + exists a, (drop (length (py "ProcessBuilder" ++ py ".getRuntime()")) u).
      split; [|exact Hbnd]. right.
      change (py "ProcessBuilder.getRuntime()")
        with (py "ProcessBuilder" ++ py ".getRuntime()").
      by rewrite <- Hu.
  - intros (a & b & Hcode & Ha). left. split; [done|].
    destruct Hcode as [->| ->].
    + exists a, (py "Runtime.getRuntime()" ++ b). split; [done|].
      apply m_runtime_iff. cbn [rest].
      assert (Hu : startswith (py "Runtime" ++ py ".getRuntime()")
                     (py "Runtime.getRuntime()" ++ b) = true)
        by apply (startswith_app (py "Runtime.getRuntime()")).
      split; [|by left]. rewrite Hb by (by left). by rewrite Ha.
    + exists a, (py "ProcessBuilder.getRuntime()" ++ b). split; [done|].
      apply m_runtime_iff. cbn [rest].
      assert (Hu : startswith (py "ProcessBuilder" ++ py ".getRuntime()")
                     (py "ProcessBuilder.getRuntime()" ++ b) = true)
        by apply (startswith_app (py "ProcessBuilder.getRuntime()")).
      split; [|by right]. rewrite Hb by (by right). by rewrite Ha.
Qed.

(** What the absence of every reason says about the code. *)
Lemma untriggered_code code :
  triggered T JavaTestValidator_init code = [] ->
  contains (py "System.exit") code = false
  /\ contains (py "new ProcessBuilder") code = false
  /\ ~ (exists a b, code = a ++ py "exec(" ++ b /\ word_opt T (last a) = false).
Proof.
  intros Hnil.
  assert (Hno : forall msg, ~ msg ∈ triggered T JavaTestValidator_init code)
    by (intros msg; rewrite Hnil; apply not_elem_of_nil).
  split; [|split].
  - apply not_true_is_false. intros H%(search_Str_iff T).
    apply (Hno (py "禁止调用 System.exit()")), triggered_elem. by do 3 right.
  - apply not_true_is_false. intros H%(search_Str_iff T).
    apply (Hno (py "禁止创建进程")), triggered_elem. right. right. by left.
  - change (py "exec(") with (101 :: py "xec(").
    intros H%(search_bound_Str_iff T 101 (py "xec(") code eq_refl).
    apply (Hno (py "禁止调用 exec()")), triggered_elem. right. by left.
Qed.

Lemma marked_code code :
  has_test_marker T code = true -> contains (py "@Test") code = true.
Proof.
  unfold has_test_marker. rewrite negb_true_iff, Nat.eqb_neq.
  intros H. apply contains_iff.
  assert (Hs : is_Some (search T NOFLAGS pat_test_marker code)).
  { apply not_eq_None_Some. intros E%(findall_nil T NOFLAGS).
    by rewrite E in H. }
  change pat_test_marker with (Cat [Str (py "@Tes" ++ [116]); Bound]) in Hs.
  apply (search_Str_bound_iff T (py "@Tes") 116 code eq_refl) in Hs
    as (a & b & -> & _).
  by exists a, b.
Qed.

Lemma class_code code :
  is_Some (class_name T code) -> contains (py "public") code = true.
Proof.
  intros H. apply contains_iff.
  assert (Hs : is_Some (search T NOFLAGS pat_public_class code)).
  { apply not_eq_None_Some. rewrite <- class_name_search.
    by apply not_eq_None_Some. }
  apply search_iff in Hs as (a & u & -> & [st' Hm]).
  unfold pat_public_class, Cat in Hm. cbn [foldr] in Hm.
  rewrite m_Seq, m_Str, lit_prefix_NOFLAGS in Hm. cbn [rest] in Hm.
  destruct (startswith (py "public") u) eqn:E; [|done].
  apply startswith_true in E. exists a, (drop (length (py "public")) u).
  by rewrite <- E.
Qed.

Lemma extract_stripped self raw code :
  _extract_java_code T self raw = Ok code -> strip code = code.
Proof.
  unfold _extract_java_code.
  destruct (search T code_block_flags pat_code_block raw) as [mt|].
  - destruct (group_1_str mt) as [g|]; [|done]. intros [= <-]. apply strip_idemp.
  - destruct (split NL (strip raw)) as [|line0 ls]; [by intros [= <-]|].
    destruct (_ || _); intros [= <-]; [apply strip_idemp|done].
Qed.

Lemma report_for_valid self code target :
  valid (report_for T self code target) = true ->
  code <> [] /\ triggered T self code = []
  /\ structure_errors T code = []
  /\ clean_code (report_for T self code target) = code
  /\ warnings (report_for T self code target) = structure_warnings T code.
Proof.
  destruct code as [|c code]; cbn [report_for]; [done|].
  generalize (triggered T self (c :: code)) as reasons.
  intros [|reason reasons]; cbn [valid clean_code warnings]; [|done].
  intros H%Nat.eqb_eq%length_zero_iff_nil. done.
Qed.

Lemma escalate_clean_code strict r :
  clean_code (escalate strict r) = clean_code r.
Proof. unfold escalate. by destruct (_ && _). Qed.

(** What a report accepted in strict mode says about the code. *)
Lemma strict_accepted raw target lg final lg' :
  validate_java_test T raw target true lg = (Ok final, lg') ->
  valid final = true ->
  exists code,
    _extract_java_code T JavaTestValidator_init raw = Ok code
    /\ clean_code final = code /\ code <> []
    /\ triggered T JavaTestValidator_init code = []
    /\ structure_errors T code = [] /\ structure_warnings T code = [].
Proof.
  generalize JavaTestValidator_init (validate_closed T JavaTestValidator_init raw target)
    (validate_java_test_eq T raw target true lg).
  intros V (code & Hc & Hv) Heq.
  rewrite (Heq _ Hv). intros [= <- _].
  intros [Hvalid Hw]%escalate_valid. specialize (Hw eq_refl).
  apply report_for_valid in Hvalid as (Hne & Ht & He & Hcl & Hwarn).
  exists code. rewrite escalate_clean_code, <- Hwarn. done.
Qed.

(** X11.  The code of a report that [validate] accepts is not empty, has
    no "System.exit", no "new ProcessBuilder" and no "exec(" at a word
    boundary, and has "@Test", "public" and one of the two JUnit 5
    import lines. *)
Theorem valid_code_is_screened (raw : text) (target : option text) :
  exists r,
    validate T JavaTestValidator_init raw target = Ok r
    /\ (valid r = true ->
        clean_code r <> []
        /\ contains (py "System.exit") (clean_code r) = false
        /\ contains (py "new ProcessBuilder") (clean_code r) = false
        /\ ~ (exists a b, clean_code r = a ++ py "exec(" ++ b
                          /\ word_opt T (last a) = false)
        /\ contains (py "@Test") (clean_code r) = true
        /\ contains (py "public") (clean_code r) = true
        /\ has_junit_import (clean_code r) = true).
Proof.
  destruct (validate_closed T JavaTestValidator_init raw target)
    as (code & Hc & Hv).
  exists (report_for T JavaTestValidator_init code target). split; [done|].
  destruct code as [|c code]; [done|]. cbn [report_for].
  destruct (triggered T JavaTestValidator_init (c :: code)) eqn:Ht; [|done].
  cbn [valid clean_code]. intros Hvalid.
  apply Nat.eqb_eq, length_zero_iff_nil, structure_errors_nil in Hvalid
    as (Himport & Hclass & Hmark).
  destruct (untriggered_code _ Ht) as (Hexit & Hproc & Hexec).
  split; [done|]. split; [done|]. split; [done|]. split; [done|].
  split; [by apply marked_code|]. split; [by apply class_code|done].
Qed.


End MoreValidator.

Lemma plain_reply_has_no_code_witness :
  validate ascii_only JavaTestValidator_init refusal None
  = Ok {| valid := false; clean_code := [];
          errors := [py "未找到有效的 ```java 代码块"];
          warnings := []; suggestions := [] |}.
Proof.
  apply (plain_reply_has_no_code ascii_only JavaTestValidator_init refusal None).
  - vm_compute. reflexivity.
  - vm_compute. reflexivity.
  - vm_compute. reflexivity.
Defined.


(** * Further properties of the generator *)

Section MoreGenerator.

Context (T : char -> bool).
Context (module_dir : text).
Context (open_read : text -> result text).
Context (template_render : text -> list (text * pyval) -> result text).
Context (call_llm : text -> text -> result text).

Local Abbreviation reply := (llm_reply module_dir open_read template_render call_llm).
Local Abbreviation generate :=
  (generate_java_test T module_dir open_read template_render call_llm).

Lemma strict_accepts raw target lg code :
  _extract_java_code T JavaTestValidator_init raw = Ok code ->
  code <> [] -> triggered T JavaTestValidator_init code = [] ->
  structure_errors T code = [] -> structure_warnings T code = [] ->
  exists final lg',
    validate_java_test T raw target true lg = (Ok final, lg')
    /\ valid final = true /\ clean_code final = code.
Proof.
  generalize JavaTestValidator_init
    (validate_closed T JavaTestValidator_init raw target)
    (validate_java_test_eq T raw target true lg).
  intros V (code' & Hc & Hv) Heq Hcode Hne Ht He Hw.
  rewrite Hcode in Hc. injection Hc as <-.
  eexists _, _. split; [by apply Heq|].
  rewrite escalate_clean_code, escalate_valid.
  destruct code as [|c code]; [done|]. cbn [report_for].
  rewrite Ht. cbn [valid warnings clean_code]. by rewrite He, Hw.
Qed.

(** The outcome of a run whose model call succeeded is decided by the
    strict report. *)
Lemma generate_after_reply state class_name source_code method_signature
    framework lg raw :
  reply state class_name source_code method_signature framework = Ok raw ->
  exists final lg',
    validate_java_test T raw None true lg = (Ok final, lg')
    /\ generate state class_name source_code method_signature framework lg
       = if valid final
         then (Ok {| test_class := VStr (clean_code final);
                     file_path := py "src/test/java/" ++ class_name
                                  ++ py "Test.java";
                     dependencies := [ py "org.mockito:mockito-core";
                                       py "org.junit.jupiter:junit-jupiter" ] |},
               {| scratchpad :=
                    <[ py "last_generated_test" :=
                         VDict [ (py "class_name", VStr class_name);
                                 (py "test_code", VStr (clean_code final));
                                 (py "file_path",
                                  VStr (py "src/test/java/" ++ class_name
                                        ++ py "Test.java")) ] ]>
                      (scratchpad state) |}, lg')
         else (Raise (KeyError (py "issues")), state, lg').
Proof.
  intros Hraw. unfold generate_java_test. rewrite Hraw.
  destruct (validate_closed T JavaTestValidator_init raw None) as (code & _ & Hv).
  rewrite (validate_java_test_eq T _ _ _ _ _ Hv).
  eexists _, _. split; [done|].
  destruct (valid (escalate true _)) eqn:E.
  - by rewrite checked_code_valid.
  - by rewrite checked_code_invalid.
Qed.

(** X12.  When [generate_java_test] raises, the agent state is the one it
    was given, and the exception is either the one a collaborator raised
    before the validation (reading the template, rendering it, calling
    the model) or [KeyError('issues')]: the [ValueError] of step 4 is
    never raised. *)
Theorem generate_failure_keeps_state (state : AgentState)
    (class_name source_code : text) (method_signature : option text)
    (framework : text) (lg : Logger) (e : exn) (state' : AgentState)
    (lg' : Logger) :
  generate state class_name source_code method_signature framework lg
  = (Raise e, state', lg') ->
  state' = state
  /\ (reply state class_name source_code method_signature framework = Raise e
      \/ e = KeyError (py "issues")).
Proof.
  destruct (reply state class_name source_code method_signature framework)
    as [raw|e0] eqn:Hraw.
  - destruct (generate_after_reply _ _ _ _ _ lg _ Hraw) as (final & lg1 & _ & ->).
    destruct (valid final); [done|]. intros [= <- <- _]. auto.
  - unfold generate_java_test. rewrite Hraw. intros [= <- <- _]. auto.
Qed.

(** X13.  Once the model has replied, [generate_java_test] returns a
    result exactly when code was extracted from the reply, no danger
    pattern matches it and neither an error nor a warning of the
    structure checks applies. *)
Theorem generate_succeeds_iff (state : AgentState)
    (class_name source_code : text) (method_signature : option text)
    (framework : text) (lg : Logger) (raw : text) :
  reply state class_name source_code method_signature framework = Ok raw ->
  (exists res state' lg',
      generate state class_name source_code method_signature framework lg
      = (Ok res, state', lg'))
  <-> (exists code,
          _extract_java_code T JavaTestValidator_init raw = Ok code
          /\ code <> [] /\ triggered T JavaTestValidator_init code = []
          /\ structure_errors T code = [] /\ structure_warnings T code = []).
Proof.
  intros Hraw.
  destruct (generate_after_reply _ _ _ _ _ lg _ Hraw) as (final & lg1 & Hvj & ->).
  split.
  - intros (res & state' & lg' & H). destruct (valid final) eqn:E; [|done].
    destruct (strict_accepted T _ _ _ _ _ Hvj E)
      as (code & ? & _ & ? & ? & ? & ?).
    by exists code.
  - intros (code & Hc & Hne & Ht & He & Hw).
    destruct (strict_accepts raw None lg code Hc Hne Ht He Hw)
      as (final' & lg2 & Hvj' & E & _).
    rewrite Hvj in Hvj'. injection Hvj' as <- <-. rewrite E. by eexists _, _, _.
Qed.

(** X14.  A successful run writes one scratchpad entry and nothing else:
    under [last_generated_test] stands the record of the class name, the
    returned code and the returned path, and every other key holds what
    it held before. *)
Theorem generate_writes_one_key (state : AgentState)
    (class_name source_code : text) (method_signature : option text)
    (framework : text) (lg : Logger) (res : GenerationResult)
    (state' : AgentState) (lg' : Logger) :
  generate state class_name source_code method_signature framework lg
  = (Ok res, state', lg') ->
  scratchpad state' !! py "last_generated_test"
  = Some (VDict [ (py "class_name", VStr class_name);
                  (py "test_code", test_class res);
                  (py "file_path", VStr (file_path res)) ])
  /\ (forall key, key <> py "last_generated_test" ->
                  scratchpad state' !! key = scratchpad state !! key).
Proof.
  unfold generate_java_test.
  destruct (reply state class_name source_code method_signature framework)
    as [raw|e0]; [|done].
  destruct (validate_java_test T raw None true lg) as [[report|e1] lg1]; [|done].
  destruct (checked_code (report_dict report)) as [code|e2]; [|done].
  set (key0 := py "last_generated_test").
  set (pre := py "src/test/java/"). set (post := py "Test.java").
  clearbody key0 pre post.
  intros [= <- <- _]. cbn [scratchpad test_class file_path]. split.
  - by rewrite lookup_insert_eq.
  - intros key Hkey. by rewrite lookup_insert_ne.
Qed.

(** X15.  The code that [generate_java_test] returns is a string that is
    not empty, carries no white space at either end, has no
    "System.exit", no "new ProcessBuilder" and no "exec(" at a word
    boundary, has one of the two JUnit 5 import lines and "@Test",
    declares a public class whose captured name ends with "Test", has no
    [public static void main], and uses no mock(, when( or verify(
    without importing org.mockito. *)
Theorem generate_returns_screened_code (state : AgentState)
    (class_name_ source_code : text) (method_signature : option text)
    (framework : text) (lg : Logger) (res : GenerationResult)
    (state' : AgentState) (lg' : Logger) :
  generate state class_name_ source_code method_signature framework lg
  = (Ok res, state', lg') ->
  exists code,
    test_class res = VStr code
    /\ code <> [] /\ strip code = code
    /\ contains (py "System.exit") code = false
    /\ contains (py "new ProcessBuilder") code = false
    /\ ~ (exists a b, code = a ++ py "exec(" ++ b /\ word_opt T (last a) = false)
    /\ has_junit_import code = true
    /\ contains (py "@Test") code = true
    /\ (exists name, class_name T code = Some name
                     /\ endswith (py "Test") name = true)
    /\ has_main code = false
    /\ mock_without_import code = false.
Proof.
  destruct (reply state class_name_ source_code method_signature framework)
    as [raw|e0] eqn:Hraw.
  - destruct (generate_after_reply _ _ _ _ _ lg _ Hraw) as (final & lg1 & Hvj & ->).
    destruct (valid final) eqn:E; [|done]. intros [= <- _ _].
    destruct (strict_accepted T _ _ _ _ _ Hvj E)
      as (code & Hc & Hclean & Hne & Ht & He & Hw).
    exists code. cbn [test_class]. rewrite Hclean.
    apply extract_stripped in Hc.
    apply untriggered_code in Ht as (Hexit & Hproc & Hexec).
    apply structure_errors_nil in He as (Himport & [name Hname] & Hmark).
    apply structure_warnings_nil in Hw as (Hend & Hmain & Hmock).
    apply marked_code in Hmark.
    do 8 (split; [done|]). split; [|done].
    exists name. split; [done|]. by apply Hend.
  - unfold generate_java_test. by rewrite Hraw.
Qed.

End MoreGenerator.


Lemma generate_failure_keeps_state_witness :
  {| scratchpad := ∅ |} = {| scratchpad := ∅ |}
  /\ (llm_reply [] (fun _ => Raise (ExternalError (py "prompt_template.j2")))
        (fun _ _ => Ok []) (fun _ _ => Ok passing_reply)
        {| scratchpad := ∅ |} (py "Foo") (py "class Foo {}") None (py "junit5")
      = Raise (ExternalError (py "prompt_template.j2"))
      \/ ExternalError (py "prompt_template.j2") = KeyError (py "issues")).
Proof.
  apply (generate_failure_keeps_state ascii_only []
           (fun _ => Raise (ExternalError (py "prompt_template.j2")))
           (fun _ _ => Ok []) (fun _ _ => Ok passing_reply)
           {| scratchpad := ∅ |} (py "Foo") (py "class Foo {}") None (py "junit5")
           {| debug_enabled := false; debug_records := [] |}
           (ExternalError (py "prompt_template.j2")) {| scratchpad := ∅ |}
           {| debug_enabled := false; debug_records := [] |}).
  vm_compute. reflexivity.
Defined.

Lemma generate_succeeds_iff_witness :
  (exists res state' lg',
      generate_java_test ascii_only [] (fun _ => Ok []) (fun _ _ => Ok [])
        (fun _ _ => Ok passing_reply)
        {| scratchpad := ∅ |} (py "Foo") (py "class Foo {}") None (py "junit5")
        {| debug_enabled := false; debug_records := [] |}
      = (Ok res, state', lg'))
  <-> (exists code,
          _extract_java_code ascii_only JavaTestValidator_init passing_reply
          = Ok code
          /\ code <> [] /\ triggered ascii_only JavaTestValidator_init code = []
          /\ structure_errors ascii_only code = []
          /\ structure_warnings ascii_only code = []).
Proof.
  apply (generate_succeeds_iff ascii_only [] (fun _ => Ok []) (fun _ _ => Ok [])
           (fun _ _ => Ok passing_reply)
           {| scratchpad := ∅ |} (py "Foo") (py "class Foo {}") None (py "junit5")
           {| debug_enabled := false; debug_records := [] |} passing_reply).
  vm_compute. reflexivity.
Defined.

Lemma generate_writes_one_key_witness :
  scratchpad
    {| scratchpad :=
         <[ py "last_generated_test" :=
              VDict [ (py "class_name", VStr (py "Foo"));
                      (py "test_code", VStr passing_code);
                      (py "file_path", VStr (py "src/test/java/FooTest.java")) ] ]>
           ∅ |}
    !! py "last_generated_test"
  = Some (VDict [ (py "class_name", VStr (py "Foo"));
                  (py "test_code",
                   test_class
                     {| test_class := VStr passing_code;
                        file_path := py "src/test/java/FooTest.java";
                        dependencies := [ py "org.mockito:mockito-core";
                                          py "org.junit.jupiter:junit-jupiter" ] |});
                  (py "file_path",
                   VStr (file_path
                     {| test_class := VStr passing_code;
                        file_path := py "src/test/java/FooTest.java";
                        dependencies := [ py "org.mockito:mockito-core";
                                          py "org.junit.jupiter:junit-jupiter" ] |})) ])
  /\ (forall key, key <> py "last_generated_test" ->
        scratchpad
          {| scratchpad :=
               <[ py "last_generated_test" :=
                    VDict [ (py "class_name", VStr (py "Foo"));
                            (py "test_code", VStr passing_code);
                            (py "file_path",
                             VStr (py "src/test/java/FooTest.java")) ] ]>
                 ∅ |}
        !! key
        = scratchpad {| scratchpad := ∅ |} !! key).
Proof.
  apply (generate_writes_one_key ascii_only [] (fun _ => Ok []) (fun _ _ => Ok [])
           (fun _ _ => Ok passing_reply)
           {| scratchpad := ∅ |} (py "Foo") (py "class Foo {}") None (py "junit5")
           {| debug_enabled := false; debug_records := [] |}
           {| test_class := VStr passing_code;
              file_path := py "src/test/java/FooTest.java";
              dependencies := [ py "org.mockito:mockito-core";
                                py "org.junit.jupiter:junit-jupiter" ] |}
           {| scratchpad :=
                <[ py "last_generated_test" :=
                     VDict [ (py "class_name", VStr (py "Foo"));
                             (py "test_code", VStr passing_code);
                             (py "file_path",
                              VStr (py "src/test/java/FooTest.java")) ] ]>
                  ∅ |}
           {| debug_enabled := false; debug_records := [] |}).
  vm_compute. reflexivity.
Defined.

Lemma generate_returns_screened_code_witness :
  exists code,
    test_class
      {| test_class := VStr passing_code;
         file_path := py "src/test/java/FooTest.java";
         dependencies := [ py "org.mockito:mockito-core";
                           py "org.junit.jupiter:junit-jupiter" ] |}
    = VStr code
    /\ code <> [] /\ strip code = code
    /\ contains (py "System.exit") code = false
    /\ contains (py "new ProcessBuilder") code = false
    /\ ~ (exists a b, code = a ++ py "exec(" ++ b
                      /\ word_opt ascii_only (last a) = false)
    /\ has_junit_import code = true
    /\ contains (py "@Test") code = true
    /\ (exists name, class_name ascii_only code = Some name
                     /\ endswith (py "Test") name = true)
    /\ has_main code = false
    /\ mock_without_import code = false.
Proof.
  apply (generate_returns_screened_code ascii_only [] (fun _ => Ok [])
           (fun _ _ => Ok []) (fun _ _ => Ok passing_reply)
           {| scratchpad := ∅ |} (py "Foo") (py "class Foo {}") None (py "junit5")
           {| debug_enabled := false; debug_records := [] |}
           {| test_class := VStr passing_code;
              file_path := py "src/test/java/FooTest.java";
              dependencies := [ py "org.mockito:mockito-core";
                                py "org.junit.jupiter:junit-jupiter" ] |}
           {| scratchpad :=
                <[ py "last_generated_test" :=
                     VDict [ (py "class_name", VStr (py "Foo"));
                             (py "test_code", VStr passing_code);
                             (py "file_path",
                              VStr (py "src/test/java/FooTest.java")) ] ]>
                  ∅ |}
           {| debug_enabled := false; debug_records := [] |}).
  vm_compute. reflexivity.
Defined.
